(** * Booking PDF helpers and the Dialog component of shelf.nu

    A shallow embedding of
      - [app/modules/booking/pdf-helpers.ts]
        ([fetchAllPdfRelatedData], [getBookingAssetsCustomHeader],
         [generatePdfContent]), and
      - the [Dialog] React component,
    together with the properties stated about them.

    Conventions.
      - A JS [Date] is its epoch time in milliseconds, a [Z]; a nullable
        column is an [option].
      - Prisma enums are strings at run time ([OrganizationRoles.SELF_SERVICE]
        is the string SELF_SERVICE), and the code itself names booking
        statuses by string literals, so both are [string] here.
      - A JS object used as a string-keyed record is a [gmap string _].
      - [async] code that awaits its collaborators one after the other is
        written in a monad that logs every collaborator call and stops at
        the first rejection. *)

From Stdlib Require Import ZArith NArith Ascii String List.
From Stdlib Require Strings.Byte.
From stdpp Require Import base decidable option list gmap strings.

Local Open Scope string_scope.
Local Open Scope Z_scope.

(** ** JavaScript values that the code tests for truthiness *)

Module Js.

(** [s || d] for an optional string: [undefined] and the empty string are
    falsy. *)
Definition or_string (s : option string) (d : string) : string :=
  match s with
  | Some v => if String.eqb v "" then d else v
  | None => d
  end.

(** [o || d] for an optional object: every object is truthy. *)
Definition or_object {A : Type} (o : option A) (d : A) : A :=
  match o with
  | Some v => v
  | None => d
  end.

End Js.

(** ** Thrown values *)

(** [Error] is the built-in [new Error(message)]; [ShelfError] carries the
    fields that the constructor call passes. *)
#[warnings="-register-all"]
Inductive exn : Type :=
| Error (message : string)
| ShelfError (cause : option exn) (message : string) (status : Z)
             (label : string) (shouldBeCaptured : bool).

Inductive result (A : Type) : Type :=
| Ok (a : A)
| Throw (e : exn).
Arguments Ok {A} a.
Arguments Throw {A} e.

(** ** The data model (the parts of the Prisma schema that the code reads) *)

Record Booking : Type := mkBooking {
  b_id : string;
  b_name : string;
  b_status : string;
  b_from : option Z;
  b_to : option Z;
  b_custodianUserId : option string;
  b_organizationId : string
}.

(** An element of [booking.assets]. *)
Record AssetRef : Type := mkAssetRef {
  ref_id : string
}.

(** What [getBooking] resolves to: the booking with its assets. *)
Record BookingWithAssets : Type := mkBookingWithAssets {
  bk : Booking;
  bk_assets : list AssetRef
}.

Record Image : Type := mkImage {
  img_id : string;
  img_blob : list Byte.byte
}.

Record Organization : Type := mkOrganization {
  org_id : string;
  org_name : string;
  org_imageId : option string;
  org_image : option Image
}.

(** An asset row with its relations; [a_bookings] are all the bookings the
    asset belongs to. *)
Record Asset : Type := mkAsset {
  a_id : string;
  a_title : string;
  a_category : option string;
  a_custody : option string;
  a_location : option string;
  a_qrCodes : list string;
  a_bookings : list Booking
}.

(** ** Prisma queries *)

Module Prisma.

(** [{ lte: d }] and [{ gte: d }] on a DateTime column. *)
Inductive DateTimeFilter : Type :=
| lte (d : Z)
| gte (d : Z).

(** One key of a where-object whose value is a scalar filter. *)
Inductive FieldFilter : Type :=
| status_in (l : list string)
| from_is (f : DateTimeFilter)
| to_is (f : DateTimeFilter).

(** One key of the where-object on bookings: a scalar filter or
    [OR: [ {...}, {...} ]]. *)
Inductive WhereKey : Type :=
| Field (f : FieldFilter)
| OR (alternatives : list (list FieldFilter)).

(** A where-object is the list of its keys; [{}] is [[]]. *)
Definition BookingWhereInput : Type := list WhereKey.

(** A comparison with a NULL column does not match. *)
Definition date_matches (f : DateTimeFilter) (v : option Z) : bool :=
  match v with
  | None => false
  | Some x =>
      match f with
      | lte d => x <=? d
      | gte d => d <=? x
      end
  end.

Definition field_matches (f : FieldFilter) (b : Booking) : bool :=
  match f with
  | status_in l => bool_decide (b_status b ∈ l)
  | from_is d => date_matches d (b_from b)
  | to_is d => date_matches d (b_to b)
  end.

(** The keys of an object are conjoined; [OR] holds when one alternative
    does. *)
Definition key_matches (k : WhereKey) (b : Booking) : bool :=
  match k with
  | Field f => field_matches f b
  | OR alts => existsb (fun alt => forallb (fun f => field_matches f b) alt) alts
  end.

Definition where_matches (w : BookingWhereInput) (b : Booking) : bool :=
  forallb (fun k => key_matches k b) w.

(** The arguments of [db.asset.findMany] as the code passes them: the
    [id: { in: ... }] list and the where-object of the [bookings]
    include (category, custody, qrCodes and location are included
    whole). *)
Record AssetFindManyArgs : Type := mkAssetFindManyArgs {
  where_id_in : list string;
  include_bookings_where : BookingWhereInput
}.

Definition include_bookings (w : BookingWhereInput) (a : Asset) : Asset :=
  {| a_id := a_id a;
     a_title := a_title a;
     a_category := a_category a;
     a_custody := a_custody a;
     a_location := a_location a;
     a_qrCodes := a_qrCodes a;
     a_bookings := filter (fun b => where_matches w b = true) (a_bookings a) |}.

(** [findMany] over an asset table. *)
Definition asset_findMany (table : list Asset) (q : AssetFindManyArgs) : list Asset :=
  map (include_bookings (include_bookings_where q))
      (filter (fun a => a_id a ∈ where_id_in q) table).

(** [findUnique({ where: { id } })] over the organization table. *)
Definition organization_findUnique (table : list Organization) (id : string)
  : option Organization :=
  find (fun o => bool_decide (org_id o = id)) table.

End Prisma.

(** ** Awaiting collaborators: a log of calls and the first rejection *)

Module Async.

(** A computation extends the log of calls made so far and either
    resolves or rejects. *)
Definition M (E A : Type) : Type := list E -> list E * result A.

Definition ret {E A : Type} (a : A) : M E A :=
  fun log => (log, Ok a).

Definition throw {E A : Type} (e : exn) : M E A :=
  fun log => (log, Throw e).

(** [await m] followed by the rest of the function body. *)
Definition bind {E A B : Type} (m : M E A) (k : A -> M E B) : M E B :=
  fun log =>
    match m log with
    | (log', Ok a) => k a log'
    | (log', Throw e) => (log', Throw e)
    end.

(** A call to a collaborator: logged, then settled as the collaborator
    decides. *)
Definition call {E A : Type} (ev : E) (r : result A) : M E A :=
  fun log => ((log ++ [ev])%list, r).

(** [await Promise.all([p, q])]: both calls are issued; the result
    resolves when both do, and otherwise rejects with the rejection that
    settles first ([left_first] says which one that is when both
    reject). *)
Definition all2 {E A B : Type} (left_first : bool) (p : M E A) (q : M E B)
  : M E (A * B) :=
  fun log =>
    match p log with
    | (log1, ra) =>
        match q log1 with
        | (log2, rb) =>
            (log2,
             match ra, rb with
             | Ok a, Ok b => Ok (a, b)
             | Throw e, Ok _ => Throw e
             | Ok _, Throw e => Throw e
             | Throw ea, Throw eb => Throw (if left_first then ea else eb)
             end)
        end
    end.

(** Running a computation from an empty log. *)
Definition run {E A : Type} (m : M E A) : list E * result A := m [].

End Async.

Notation "'await' x <- m ;; k" := (Async.bind m (fun x => k))
  (at level 10, x name, m at level 99, k at level 200).

(** ** [fetchAllPdfRelatedData] *)

Definition SELF_SERVICE : string := "SELF_SERVICE".

Record PdfDbResult : Type := mkPdfDbResult {
  booking : BookingWithAssets;
  assets : list Asset;
  organization : option Organization;
  assetIdToQrCodeMap : gmap string string
}.

(** The collaborators of [fetchAllPdfRelatedData]: [getBooking] of
    [./service.server], the asset and organization tables behind [db],
    and [getQrCodeMaps] of [../qr/service.server].  A query on [db]
    rejects when its fault is set. *)
Record World : Type := mkWorld {
  getBooking : string -> string -> result (option BookingWithAssets);
  asset_table : list Asset;
  asset_fault : option exn;
  organization_table : list Organization;
  organization_fault : option exn;
  getQrCodeMaps : list Asset -> string -> string -> string -> result (gmap string string);
  asset_rejects_first : bool
}.

Inductive db_event : Type :=
| ev_getBooking (id organizationId : string)
| ev_asset_findMany (q : Prisma.AssetFindManyArgs)
| ev_organization_findUnique (id : string)
| ev_getQrCodeMaps (assets : list Asset) (userId organizationId size : string).

Definition or_fault {A : Type} (fault : option exn) (a : A) : result A :=
  match fault with
  | Some e => Throw e
  | None => Ok a
  end.

Definition db_asset_findMany (w : World) (q : Prisma.AssetFindManyArgs)
  : Async.M db_event (list Asset) :=
  Async.call (ev_asset_findMany q)
             (or_fault (asset_fault w) (Prisma.asset_findMany (asset_table w) q)).

Definition db_organization_findUnique (w : World) (id : string)
  : Async.M db_event (option Organization) :=
  Async.call (ev_organization_findUnique id)
             (or_fault (organization_fault w)
                       (Prisma.organization_findUnique (organization_table w) id)).

(** The [OR] key of the overlap filter (lines 68-71), for a current
    booking that runs from [from] to [to]. *)
Definition overlap_OR (from to : Z) : Prisma.WhereKey :=
  Prisma.OR
    [ [ Prisma.from_is (Prisma.lte to); Prisma.to_is (Prisma.gte from) ];
      [ Prisma.from_is (Prisma.gte from); Prisma.to_is (Prisma.lte to) ] ].

(** The where-object of the [bookings] include (lines 64-74): the spread
    of the conditional object into [{}].  [booking.from && booking.to] is
    truthy exactly when neither [Date] is null. *)
Definition bookings_where (b : Booking) : Prisma.BookingWhereInput :=
  match b_from b, b_to b with
  | Some from, Some to =>
      [ Prisma.Field (Prisma.status_in ["RESERVED"; "ONGOING"; "OVERDUE"]);
        overlap_OR from to ]
  | _, _ => []
  end.

(** The arguments of the [db.asset.findMany] call (lines 54-77). *)
Definition asset_query (booking : BookingWithAssets) : Prisma.AssetFindManyArgs :=
  {| Prisma.where_id_in := map ref_id (bk_assets booking);
     Prisma.include_bookings_where := bookings_where (bk booking) |}.

Definition fetchAllPdfRelatedData (w : World)
    (bookingId organizationId userId : string) (role : option string)
  : Async.M db_event PdfDbResult :=
  await found <- Async.call (ev_getBooking bookingId organizationId)
                      (getBooking w bookingId organizationId) ;;
  match found with
  | None => Async.throw (Error "Booking not found")
  | Some booking =>
      if bool_decide (role = Some SELF_SERVICE)
         && bool_decide (b_custodianUserId (bk booking) ≠ Some userId)
      then
        Async.throw
          (ShelfError None "You are not authorized to view this booking"
                      403 "Booking" false)
      else
        await both <-
          Async.all2 (asset_rejects_first w)
            (db_asset_findMany w (asset_query booking))
            (db_organization_findUnique w organizationId) ;;
        let '(assets, organization) := both in
        await assetIdToQrCodeMap <-
          Async.call (ev_getQrCodeMaps assets userId organizationId "small")
                     (getQrCodeMaps w assets userId organizationId "small") ;;
        Async.ret {| booking := booking;
                     assets := assets;
                     organization := organization;
                     assetIdToQrCodeMap := assetIdToQrCodeMap |}
  end.

(** ** [Buffer.prototype.toString] with the base64 encoding *)

Module Base64.

Definition alphabet : string :=
  "ABCDEFGHIJKLMNOPQRSTUVWXYZabcdefghijklmnopqrstuvwxyz0123456789+/".

Definition pad : ascii := "="%char.

(** The character of a 6-bit value. *)
Definition digit (n : N) : ascii :=
  match String.get (N.to_nat n) alphabet with
  | Some c => c
  | None => pad
  end.

(** The 6 bits of [n] that start at bit [k]. *)
Definition sextet (k n : N) : N := N.land (N.shiftr n k) 63.

(** Three bytes as one 24-bit group, the first byte highest. *)
Definition group (a b c : Byte.byte) : N :=
  N.lor (N.shiftl (Byte.to_N a) 16)
        (N.lor (N.shiftl (Byte.to_N b) 8) (Byte.to_N c)).

Fixpoint encode (l : list Byte.byte) : string :=
  match l with
  | [] => EmptyString
  | [a] =>
      let n := group a Byte.x00 Byte.x00 in
      String (digit (sextet 18 n)) (String (digit (sextet 12 n))
        (String pad (String pad EmptyString)))
  | [a; b] =>
      let n := group a b Byte.x00 in
      String (digit (sextet 18 n)) (String (digit (sextet 12 n))
        (String (digit (sextet 6 n)) (String pad EmptyString)))
  | a :: b :: c :: rest =>
      let n := group a b c in
      String (digit (sextet 18 n)) (String (digit (sextet 12 n))
        (String (digit (sextet 6 n)) (String (digit (sextet 0 n))
          (encode rest))))
  end.

(** *** Reading base64 back

    The inverse direction, against which [encode] is checked: the data
    URI of the header determines the stored bytes. *)

Fixpoint index_of (c : ascii) (s : string) (i : N) : option N :=
  match s with
  | EmptyString => None
  | String x s' => if Ascii.eqb x c then Some i else index_of c s' (N.succ i)
  end.

(** The 6-bit value of a character of the alphabet. *)
Definition value (c : ascii) : option N := index_of c alphabet 0.

(** Four 6-bit values as one 24-bit group. *)
Definition quad (v0 v1 v2 v3 : N) : N :=
  N.lor (N.shiftl v0 18) (N.lor (N.shiftl v1 12) (N.lor (N.shiftl v2 6) v3)).

(** The byte of [n] that starts at bit [k]. *)
Definition byte_at (k n : N) : Byte.byte :=
  match Byte.of_N (N.land (N.shiftr n k) 255) with
  | Some b => b
  | None => Byte.x00
  end.

Fixpoint decode (s : string) : option (list Byte.byte) :=
  match s with
  | EmptyString => Some []
  | String c0 (String c1 (String c2 (String c3 rest))) =>
      match value c0, value c1 with
      | Some v0, Some v1 =>
          if Ascii.eqb c2 pad then
            if Ascii.eqb c3 pad then
              match rest with
              | EmptyString => Some [byte_at 16 (quad v0 v1 0 0)]
              | _ => None
              end
            else None
          else
            match value c2 with
            | Some v2 =>
                if Ascii.eqb c3 pad then
                  match rest with
                  | EmptyString =>
                      let n := quad v0 v1 v2 0 in
                      Some [byte_at 16 n; byte_at 8 n]
                  | _ => None
                  end
                else
                  match value c3, decode rest with
                  | Some v3, Some l =>
                      let n := quad v0 v1 v2 v3 in
                      Some (byte_at 16 n :: byte_at 8 n :: byte_at 0 n :: l)
                  | _, _ => None
                  end
            | None => None
            end
      | _, _ => None
      end
  | _ => None
  end.

End Base64.

(** ** [getBookingAssetsCustomHeader] *)

(** The double quote and the line break of the template literal. *)
Definition dq : string := String "034"%char EmptyString.
Definition nl : string := String "010"%char EmptyString.

(** The template up to and including the opening quote of the [src]
    attribute (lines 106-130 of the source). *)
Definition header_open : string :=
  String.concat nl
    [ "";
      "        <style>";
      "            .header {";
      "                font-size: 10px;";
      "                text-align: right;";
      "                width: 100%;";
      "                padding: 0 20px;";
      "                display: flex;";
      "                justify-content: space-between;";
      "                align-items: center;";
      "                box-sizing: border-box;";
      "                margin-bottom:30px;";
      "            }";
      "            .header img {";
      "                height: 40px;";
      "                width: 40px;";
      "                object-fit: cover";
      "            }";
      "            .header .text {";
      "                text-align: right;";
      "                color: rgba(0, 0, 0, 0.6);";
      "            }";
      "        </style>";
      "        <div class=" +:+ dq +:+ "header" +:+ dq +:+ ">";
      "            <img src=" +:+ dq ].

(** From the closing quote of [src] to the booking name (lines 130-131). *)
Definition header_middle : string :=
  String.concat nl
    [ dq +:+ " alt=" +:+ dq +:+ "logo" +:+ dq +:+ ">";
      "            <span class=" +:+ dq +:+ "text" +:+ dq +:+ ">" ].

(** After the booking name (lines 133-135). *)
Definition header_close : string :=
  String.concat nl
    [ " | <span class=" +:+ dq +:+ "date" +:+ dq +:+ "></span> | Page <span class="
        +:+ dq +:+ "pageNumber" +:+ dq +:+ "></span>/<span class="
        +:+ dq +:+ "totalPages" +:+ dq +:+ "></span></span>";
      "        </div>";
      "    " ].

(** [organization?.image?.blob]. *)
Definition orgImageBlob (organization : option Organization) : option (list Byte.byte) :=
  match organization with
  | Some o =>
      match org_image o with
      | Some i => Some (img_blob i)
      | None => None
      end
  | None => None
  end.

(** A [Buffer] is an object, so the test on [orgImageBlob] only asks
    whether there is one. *)
Definition base64Image (organization : option Organization) : string :=
  match orgImageBlob organization with
  | Some blob => "data:image/png;base64," +:+ Base64.encode blob
  | None => ""
  end.

Definition getBookingAssetsCustomHeader (r : PdfDbResult) : string :=
  header_open
    +:+ base64Image (organization r)
    +:+ header_middle
    +:+ Js.or_string (Some (b_name (bk (booking r)))) ""
    +:+ header_close.


(** ** [generatePdfContent] *)

(** The options object of [newPage.pdf]. *)
Record PDFOptions : Type := mkPDFOptions {
  format : string;
  displayHeaderFooter : bool;
  headerTemplate : string;
  margin : gmap string string
}.

(** [{ ...base, ...src }]: the own keys of [src] are written over those of
    [base]. *)
Definition spread (base src : gmap string string) : gmap string string :=
  src ∪ base.

(** [{ top: ..., bottom: ..., left: ..., right: ... }], the keys written in
    the order of the literal. *)
Definition default_margin : gmap string string :=
  <["right" := "20px"]> (<["left" := "20px"]> (<["bottom" := "30px"]>
    (<["top" := "80px"]> ∅))).

Definition pdf_options (headerTemplate : option string)
    (styles : option (gmap string string)) : PDFOptions :=
  {| format := "A4";
     displayHeaderFooter := true;
     headerTemplate := Js.or_string headerTemplate "";
     margin := spread default_margin (Js.or_object styles ∅) |}.

(** Handles of the browser and of its page. *)
Definition Browser : Type := nat.
Definition Page : Type := nat.

(** The puppeteer calls the function makes; each may reject. *)
Record Puppeteer : Type := mkPuppeteer {
  launch : result Browser;
  newPage : Browser -> result Page;
  setContent : Page -> string -> string -> result unit;
  pdf : Page -> PDFOptions -> result (list Byte.byte);
  close : Browser -> result unit
}.

Inductive browser_event : Type :=
| ev_launch
| ev_newPage (browser : Browser)
| ev_setContent (page : Page) (html waitUntil : string)
| ev_pdf (page : Page) (options : PDFOptions)
| ev_close (browser : Browser).

Definition generatePdfContent (p : Puppeteer) (htmlContent : string)
    (headerTemplate : option string) (styles : option (gmap string string))
  : Async.M browser_event (list Byte.byte) :=
  await browser <- Async.call ev_launch (launch p) ;;
  await page <- Async.call (ev_newPage browser) (newPage p browser) ;;
  await _u <- Async.call (ev_setContent page htmlContent "networkidle0")
                         (setContent p page htmlContent "networkidle0") ;;
  await pdfBuffer <- Async.call (ev_pdf page (pdf_options headerTemplate styles))
                                (pdf p page (pdf_options headerTemplate styles)) ;;
  await _v <- Async.call (ev_close browser) (close p browser) ;;
  Async.ret pdfBuffer.

(** ** The [Dialog] component *)

Module React.

(** A click: the node it happened on and the node whose handler runs. *)
Record MouseEvent : Type := mkMouseEvent {
  target : nat;
  currentTarget : nat
}.

(** An entry of [useMatches()]. *)
Record UIMatch : Type := mkUIMatch {
  match_id : string;
  pathname : string
}.

(** A handler is what it does when called: the arguments of its calls
    to [navigate], in order. *)
Definition Handler : Type := MouseEvent -> list (option UIMatch).

(** The props that the elements of this component carry. *)
Record Props : Type := mkProps {
  className : option string;
  onClick : option Handler;
  open : option bool;
  to : option UIMatch;
  variant : option string
}.

Definition no_props : Props :=
  {| className := None; onClick := None; open := None; to := None;
     variant := None |}.

(** A lower-case JSX tag is a host element, an upper-case one a
    component that React renders later. *)
Inductive ElementType : Type :=
| host (tag : string)
| component (name : string).

#[warnings="-register-all"]
Inductive ReactNode : Type :=
| null
| element (type : ElementType) (props : Props) (children : list ReactNode).

(** Whether some element of the tree carries a click handler. *)
Fixpoint has_onClick (n : ReactNode) : bool :=
  match n with
  | null => false
  | element _ p cs =>
      match onClick p with Some _ => true | None => false end
      || (fix any (l : list ReactNode) : bool :=
            match l with
            | [] => false
            | c :: l' => has_onClick c || any l'
            end) cs
  end.

(** Whether [c] is the tree [n] or lies somewhere inside it. *)
Fixpoint contains (c n : ReactNode) : Prop :=
  c = n \/
  match n with
  | null => False
  | element _ _ cs =>
      (fix any (l : list ReactNode) : Prop :=
         match l with
         | [] => False
         | x :: l' => contains c x \/ any l'
         end) cs
  end.

End React.

(** [matches[matches.length - 2]]: [undefined] when the index is negative
    or past the end. *)
Definition prevRoute (matches : list React.UIMatch) : option React.UIMatch :=
  let i := Z.of_nat (length matches) - 2 in
  if i <? 0 then None else matches !! Z.to_nat i.

Definition handleBackdropClose (matches : list React.UIMatch) : React.Handler :=
  fun e =>
    if bool_decide (React.target e ≠ React.currentTarget e) then []
    else [prevRoute matches].

(** [matches] is what [useMatches()] returns in the render. *)
Definition Dialog (matches : list React.UIMatch)
    (children : React.ReactNode) (open : bool) : React.ReactNode :=
  if open then
    React.element (React.host "div")
      {| React.className := Some "dialog-backdrop";
         React.onClick := Some (handleBackdropClose matches);
         React.open := None; React.to := None; React.variant := None |}
      [ React.element (React.host "dialog")
          {| React.className := Some "dialog";
             React.onClick := None;
             React.open := Some true; React.to := None; React.variant := None |}
          [ React.element (React.component "Button")
              {| React.className :=
                   Some "absolute right-4 top-[16px] leading-none text-gray-500 md:right-6 md:top-[26px]";
                 React.onClick := None;
                 React.open := None;
                 React.to := prevRoute matches;
                 React.variant := Some "link" |}
              [ React.element (React.component "XIcon") React.no_props [] ];
            children ] ]
  else React.null.

(** ** Vocabulary of the properties *)

(** The statuses the overlap filter keeps. *)
Definition active_status (o : Booking) : Prop :=
  b_status o = "RESERVED" \/ b_status o = "ONGOING" \/ b_status o = "OVERDUE".

(** The inclusive intersection test between the window [[from, to]] and
    the interval of [o]: [from <= otherTo] and [to >= otherFrom]. *)
Definition intersects (from to : Z) (o : Booking) : Prop :=
  exists f2 t2, b_from o = Some f2 /\ b_to o = Some t2 /\ from <= t2 /\ to >= f2.

(** The calls that read the asset and organization tables. *)
Definition is_db_query (ev : db_event) : bool :=
  match ev with
  | ev_asset_findMany _ | ev_organization_findUnique _ => true
  | _ => false
  end.

(** The role check of lines 41-44. *)
Definition denied (role : option string) (b : BookingWithAssets) (userId : string) : Prop :=
  role = Some SELF_SERVICE /\ b_custodianUserId (bk b) ≠ Some userId.

(** ** Sample data *)

Module Sample.

(** Midnight UTC of a day of January 2024, in milliseconds. *)
Definition jan (d : Z) : Z := 1704067200000 + (d - 1) * 86400000.

Definition b1 : Booking :=
  mkBooking "b1" "Conference kit" "RESERVED" (Some (jan 1)) (Some (jan 5))
            (Some "u1") "o1".
Definition b2 : Booking :=
  mkBooking "b2" "Workshop" "RESERVED" (Some (jan 3)) (Some (jan 10))
            (Some "u2") "o1".
Definition b3 : Booking :=
  mkBooking "b3" "Later" "ONGOING" (Some (jan 6)) (Some (jan 7))
            (Some "u2") "o1".
Definition b4 : Booking :=
  mkBooking "b4" "Done" "COMPLETE" (Some (jan 2)) (Some (jan 4))
            (Some "u2") "o1".
Definition b5 : Booking :=
  mkBooking "b5" "Draft" "DRAFT" None None None "o1".
(** A stored booking whose end precedes its start. *)
Definition b6 : Booking :=
  mkBooking "b6" "Inverted" "RESERVED" (Some (jan 6)) (Some (jan 2))
            (Some "u2") "o1".

Definition a1 : Asset :=
  mkAsset "a1" "Camera" (Some "Video") None (Some "Office") ["qr1"]
          [b1; b2; b3; b4; b5; b6].
Definition a2 : Asset :=
  mkAsset "a2" "Tripod" None None None [] [b3].

Definition logo : Image := mkImage "i1" [Byte.x4d; Byte.x61; Byte.x6e].
Definition org : Organization := mkOrganization "o1" "Acme" (Some "i1") (Some logo).
Definition org_no_logo : Organization := mkOrganization "o2" "Bare" None None.

Definition world : World :=
  {| getBooking := fun id organizationId =>
       if bool_decide (organizationId = "o1") then
         if bool_decide (id = "b1") then
           Ok (Some (mkBookingWithAssets b1 [mkAssetRef "a1"]))
         else if bool_decide (id = "b5") then
           Ok (Some (mkBookingWithAssets b5 [mkAssetRef "a1"]))
         else Ok None
       else Ok None;
     asset_table := [a1; a2];
     asset_fault := None;
     organization_table := [org; org_no_logo];
     organization_fault := None;
     getQrCodeMaps := fun assets _ _ _ =>
       Ok (list_to_map (map (fun a => (a_id a, "qr-of-" +:+ a_id a)) assets));
     asset_rejects_first := true |}.

End Sample.

(** ** Vocabulary of the properties of the header and of the renderer *)

(** Whether [s] begins with [p]. *)
Fixpoint starts_with (p s : string) : bool :=
  match p, s with
  | EmptyString, _ => true
  | String a p', String b s' => Ascii.eqb a b && starts_with p' s'
  | String _ _, EmptyString => false
  end.

(** What follows [n] characters of [s]. *)
Fixpoint skip (n : nat) (s : string) : string :=
  match n, s with
  | S n', String _ s' => skip n' s'
  | _, _ => s
  end.

(** What follows the first occurrence of [p] in [s]. *)
Fixpoint after (p s : string) : option string :=
  if starts_with p s then Some (skip (String.length p) s)
  else match s with
       | EmptyString => None
       | String _ s' => after p s'
       end.

(** The characters of [s] before the first double quote. *)
Fixpoint until_quote (s : string) : option string :=
  match s with
  | EmptyString => None
  | String c s' =>
      if Ascii.eqb c "034"%char then Some EmptyString
      else match until_quote s' with
           | Some v => Some (String c v)
           | None => None
           end
  end.

(** The value of the [src] attribute of the first [img] tag of a
    fragment. *)
Definition img_src (html : string) : option string :=
  match after ("<img src=" +:+ dq) html with
  | Some rest => until_quote rest
  | None => None
  end.

(** A string with no double quote in it. *)
Fixpoint quote_free (s : string) : Prop :=
  match s with
  | EmptyString => True
  | String c s' => c <> "034"%char /\ quote_free s'
  end.

(** The puppeteer method behind a logged call. *)
Inductive method : Type :=
| m_launch | m_newPage | m_setContent | m_pdf | m_close.

Definition method_of (ev : browser_event) : method :=
  match ev with
  | ev_launch => m_launch
  | ev_newPage _ => m_newPage
  | ev_setContent _ _ _ => m_setContent
  | ev_pdf _ _ => m_pdf
  | ev_close _ => m_close
  end.

Module SampleBrowser.

(** A browser that renders. *)
Definition chrome : Puppeteer :=
  {| launch := Ok 1%nat;
     newPage := fun _ => Ok 7%nat;
     setContent := fun _ _ _ => Ok tt;
     pdf := fun _ _ => Ok [Byte.x25; Byte.x50; Byte.x44; Byte.x46];
     close := fun _ => Ok tt |}.

(** A browser whose page never becomes idle. *)
Definition stalls : Puppeteer :=
  {| launch := Ok 1%nat;
     newPage := fun _ => Ok 7%nat;
     setContent := fun _ _ _ => Throw (Error "Navigation timeout");
     pdf := fun _ _ => Ok [Byte.x25; Byte.x50; Byte.x44; Byte.x46];
     close := fun _ => Ok tt |}.

(** A browser that fails to print. *)
Definition jams : Puppeteer :=
  {| launch := Ok 1%nat;
     newPage := fun _ => Ok 7%nat;
     setContent := fun _ _ _ => Ok tt;
     pdf := fun _ _ => Throw (Error "Printing failed");
     close := fun _ => Ok tt |}.

Definition styles : gmap string string :=
  <["top" := "120px"]> (<["padding" := "4px"]> ∅).

End SampleBrowser.

(** ** Reading the fragment and the rendered dialog back *)

(** A string in which the character [c] does not occur. *)
Fixpoint free_of (c : ascii) (s : string) : Prop :=
  match s with
  | EmptyString => True
  | String x s' => x <> c /\ free_of c s'
  end.

(** [s] without its prefix [p], when it has that prefix. *)
Definition strip_prefix (p s : string) : option string :=
  if starts_with p s then Some (skip (String.length p) s) else None.

(** The bytes that the data URI of the first [img] tag of a fragment
    stands for. *)
Definition logo_of_header (html : string) : option (list Byte.byte) :=
  match img_src html with
  | Some src =>
      match strip_prefix "data:image/png;base64," src with
      | Some b64 => Base64.decode b64
      | None => None
      end
  | None => None
  end.

(** The opening tag of the text span of the header. *)
Definition text_span_open : string :=
  "<span class=" +:+ dq +:+ "text" +:+ dq +:+ ">".

(** The click handler of the outermost element of a tree. *)
Definition root_onClick (n : React.ReactNode) : option React.Handler :=
  match n with
  | React.element _ p _ => React.onClick p
  | React.null => None
  end.

(** The [to] prop of the first [Button] among the children of the single
    child of the root (where [Dialog] puts its close button). *)
Definition close_button_to (n : React.ReactNode) : option React.UIMatch :=
  match n with
  | React.element _ _ [React.element _ _ (React.element (React.component "Button") p _ :: _)] =>
      React.to p
  | _ => None
  end.

(** The collaborator behind a logged call of [fetchAllPdfRelatedData]. *)
Inductive collaborator : Type :=
| c_getBooking | c_asset_findMany | c_organization_findUnique | c_getQrCodeMaps.

Definition collaborator_of (ev : db_event) : collaborator :=
  match ev with
  | ev_getBooking _ _ => c_getBooking
  | ev_asset_findMany _ => c_asset_findMany
  | ev_organization_findUnique _ => c_organization_findUnique
  | ev_getQrCodeMaps _ _ _ _ => c_getQrCodeMaps
  end.

Module SampleFaults.

(** The booking service is unreachable. *)
Definition no_service : World :=
  {| getBooking := fun _ _ => Throw (Error "service unavailable");
     asset_table := asset_table Sample.world;
     asset_fault := None;
     organization_table := organization_table Sample.world;
     organization_fault := None;
     getQrCodeMaps := getQrCodeMaps Sample.world;
     asset_rejects_first := true |}.

(** The asset query times out. *)
Definition asset_timeout : World :=
  {| getBooking := getBooking Sample.world;
     asset_table := asset_table Sample.world;
     asset_fault := Some (Error "query timeout");
     organization_table := organization_table Sample.world;
     organization_fault := None;
     getQrCodeMaps := getQrCodeMaps Sample.world;
     asset_rejects_first := true |}.

(** The QR resolver fails. *)
Definition no_codes : World :=
  {| getBooking := getBooking Sample.world;
     asset_table := asset_table Sample.world;
     asset_fault := None;
     organization_table := organization_table Sample.world;
     organization_fault := None;
     getQrCodeMaps := fun _ _ _ _ => Throw (Error "qr failed");
     asset_rejects_first := true |}.

(** The organization table has lost its rows. *)
Definition no_organizations : World :=
  {| getBooking := getBooking Sample.world;
     asset_table := asset_table Sample.world;
     asset_fault := None;
     organization_table := [];
     organization_fault := None;
     getQrCodeMaps := getQrCodeMaps Sample.world;
     asset_rejects_first := true |}.

(** A browser that cannot start. *)
Definition no_launch : Puppeteer :=
  {| launch := Throw (Error "no chrome");
     newPage := newPage SampleBrowser.chrome;
     setContent := setContent SampleBrowser.chrome;
     pdf := pdf SampleBrowser.chrome;
     close := close SampleBrowser.chrome |}.

(** A browser that cannot open a page. *)
Definition no_page : Puppeteer :=
  {| launch := Ok 1%nat;
     newPage := fun _ => Throw (Error "target closed");
     setContent := setContent SampleBrowser.chrome;
     pdf := pdf SampleBrowser.chrome;
     close := close SampleBrowser.chrome |}.

(** A browser that prints but fails to shut down. *)
Definition no_close : Puppeteer :=
  {| launch := Ok 1%nat;
     newPage := fun _ => Ok 7%nat;
     setContent := fun _ _ _ => Ok tt;
     pdf := pdf SampleBrowser.chrome;
     close := fun _ => Throw (Error "close failed") |}.

Definition routes : list React.UIMatch :=
  [ React.mkUIMatch "root" "/";
    React.mkUIMatch "routes/bookings" "/bookings";
    React.mkUIMatch "routes/bookings.new" "/bookings/new" ].

End SampleFaults.

(** ** Running [fetchAllPdfRelatedData] *)

Lemma fetch_not_found (w : World) (bookingId organizationId userId : string)
    (role : option string) :
  getBooking w bookingId organizationId = Ok None ->
  Async.run (fetchAllPdfRelatedData w bookingId organizationId userId role)
  = ([ev_getBooking bookingId organizationId], Throw (Error "Booking not found")).
Proof.
  intros Hnone. unfold Async.run, fetchAllPdfRelatedData, Async.bind, Async.call.
  rewrite Hnone. reflexivity.
Qed.

Lemma denied_test (role : option string) (b : BookingWithAssets) (userId : string) :
  bool_decide (role = Some SELF_SERVICE)
  && bool_decide (b_custodianUserId (bk b) ≠ Some userId) = true
  <-> denied role b userId.
Proof.
  unfold denied. rewrite andb_true_iff, !bool_decide_eq_true. reflexivity.
Qed.

Lemma fetch_denied (w : World) (bookingId organizationId userId : string)
    (role : option string) (b : BookingWithAssets) :
  getBooking w bookingId organizationId = Ok (Some b) ->
  denied role b userId ->
  Async.run (fetchAllPdfRelatedData w bookingId organizationId userId role)
  = ([ev_getBooking bookingId organizationId],
     Throw (ShelfError None "You are not authorized to view this booking"
                       403 "Booking" false)).
Proof.
  intros Hsome Hden. apply denied_test in Hden.
  unfold Async.run, fetchAllPdfRelatedData, Async.bind, Async.call.
  rewrite Hsome. cbn beta iota. rewrite Hden. reflexivity.
Qed.

(** Past the two checks, both queries are issued, in this order. *)
Lemma fetch_allowed_log (w : World) (bookingId organizationId userId : string)
    (role : option string) (b : BookingWithAssets) :
  getBooking w bookingId organizationId = Ok (Some b) ->
  ~ denied role b userId ->
  exists rest,
    fst (Async.run (fetchAllPdfRelatedData w bookingId organizationId userId role))
    = ev_getBooking bookingId organizationId
        :: ev_asset_findMany (asset_query b)
        :: ev_organization_findUnique organizationId :: rest.
Proof.
  intros Hsome Hden. rewrite <- denied_test in Hden.
  apply not_true_is_false in Hden.
  unfold Async.run, fetchAllPdfRelatedData, Async.bind, Async.call, Async.all2.
  rewrite Hsome. cbn beta iota. rewrite Hden.
  unfold db_asset_findMany, db_organization_findUnique, Async.call. cbn.
  destruct (asset_fault w), (organization_fault w); cbn; eauto.
  destruct (getQrCodeMaps w _ userId organizationId "small"); cbn; eauto.
Qed.

(** No other asset query is ever issued. *)
Lemma fetch_asset_queries (w : World) (bookingId organizationId userId : string)
    (role : option string) (b : BookingWithAssets) (q : Prisma.AssetFindManyArgs) :
  getBooking w bookingId organizationId = Ok (Some b) ->
  In (ev_asset_findMany q)
     (fst (Async.run (fetchAllPdfRelatedData w bookingId organizationId userId role))) ->
  q = asset_query b.
Proof.
  intros Hsome.
  unfold Async.run, fetchAllPdfRelatedData, Async.bind, Async.call, Async.all2.
  rewrite Hsome. cbn beta iota.
  destruct (bool_decide (role = Some SELF_SERVICE) && _).
  { cbn. intros [H | []]. discriminate H. }
  unfold db_asset_findMany, db_organization_findUnique, Async.call. cbn.
  destruct (asset_fault w), (organization_fault w); cbn;
    try (intros [H | [H | [H | []]]]; try discriminate H;
         injection H as <-; reflexivity).
  destruct (getQrCodeMaps w _ userId organizationId "small"); cbn;
    intros [H | [H | [H | [H | []]]]]; try discriminate H;
    injection H as <-; reflexivity.
Qed.

(** When the function resolves, its assets are the answer to that query. *)
Lemma fetch_allowed_assets (w : World) (bookingId organizationId userId : string)
    (role : option string) (b : BookingWithAssets) (r : PdfDbResult) :
  getBooking w bookingId organizationId = Ok (Some b) ->
  snd (Async.run (fetchAllPdfRelatedData w bookingId organizationId userId role)) = Ok r ->
  booking r = b /\
  assets r = Prisma.asset_findMany (asset_table w) (asset_query b).
Proof.
  intros Hsome.
  unfold Async.run, fetchAllPdfRelatedData, Async.bind, Async.call, Async.all2.
  rewrite Hsome. cbn beta iota.
  destruct (bool_decide (role = Some SELF_SERVICE) && _); [discriminate |].
  unfold db_asset_findMany, db_organization_findUnique, Async.call. cbn.
  destruct (asset_fault w), (organization_fault w); cbn; try discriminate.
  destruct (getQrCodeMaps w _ userId organizationId "small"); cbn; [| discriminate].
  intros [= <-]. split; reflexivity.
Qed.

(** With no fault and a QR resolver that answers, the function resolves. *)
Lemma fetch_allowed_resolves (w : World) (bookingId organizationId userId : string)
    (role : option string) (b : BookingWithAssets) (codes : gmap string string) :
  getBooking w bookingId organizationId = Ok (Some b) ->
  ~ denied role b userId ->
  asset_fault w = None ->
  organization_fault w = None ->
  getQrCodeMaps w (Prisma.asset_findMany (asset_table w) (asset_query b))
                userId organizationId "small" = Ok codes ->
  snd (Async.run (fetchAllPdfRelatedData w bookingId organizationId userId role))
  = Ok {| booking := b;
          assets := Prisma.asset_findMany (asset_table w) (asset_query b);
          organization :=
            Prisma.organization_findUnique (organization_table w) organizationId;
          assetIdToQrCodeMap := codes |}.
Proof.
  intros Hsome Hden Hfa Hfo Hqr. rewrite <- denied_test in Hden.
  apply not_true_is_false in Hden.
  unfold Async.run, fetchAllPdfRelatedData, Async.bind, Async.call, Async.all2.
  rewrite Hsome. cbn beta iota. rewrite Hden.
  unfold db_asset_findMany, db_organization_findUnique, Async.call.
  rewrite Hfa, Hfo. cbn. rewrite Hqr. reflexivity.
Qed.

(** ** What the where-object of the bookings include admits *)

Lemma status_in_active (o : Booking) :
  Prisma.field_matches (Prisma.status_in ["RESERVED"; "ONGOING"; "OVERDUE"]) o = true
  <-> active_status o.
Proof.
  unfold active_status. cbn. rewrite bool_decide_eq_true.
  rewrite !elem_of_cons, elem_of_nil. tauto.
Qed.

Lemma date_matches_lte (d : Z) (v : option Z) :
  Prisma.date_matches (Prisma.lte d) v = true <-> exists x, v = Some x /\ x <= d.
Proof.
  destruct v as [x |]; cbn.
  - rewrite Z.leb_le. split; [eauto | intros (y & [= ->] & H); exact H].
  - split; [discriminate | intros (y & H & _); discriminate].
Qed.

Lemma date_matches_gte (d : Z) (v : option Z) :
  Prisma.date_matches (Prisma.gte d) v = true <-> exists x, v = Some x /\ x >= d.
Proof.
  destruct v as [x |]; cbn.
  - rewrite Z.leb_le. split; [intros H; exists x; split; [reflexivity | lia]
                             | intros (y & [= ->] & H); lia].
  - split; [discriminate | intros (y & H & _); discriminate].
Qed.

(** The two alternatives of [OR], read on a booking whose dates are set. *)
Lemma overlap_OR_dates (from to : Z) (o : Booking) (f2 t2 : Z) :
  b_from o = Some f2 -> b_to o = Some t2 ->
  Prisma.key_matches (overlap_OR from to) o = true
  <-> (f2 <= to /\ t2 >= from) \/ (f2 >= from /\ t2 <= to).
Proof.
  intros Hf Ht. cbn. rewrite Hf, Ht. cbn.
  rewrite !orb_true_iff, !andb_true_iff, !Z.leb_le. intuition lia.
Qed.

(** A booking with a null date passes neither alternative. *)
Lemma overlap_OR_null (from to : Z) (o : Booking) :
  b_from o = None \/ b_to o = None ->
  Prisma.key_matches (overlap_OR from to) o = false.
Proof.
  intros [H | H]; cbn; rewrite H; cbn;
    destruct (b_from o), (b_to o); cbn; rewrite ?andb_false_r; reflexivity.
Qed.

Lemma overlap_OR_matches (from to : Z) (o : Booking) :
  Prisma.key_matches (overlap_OR from to) o = true
  <-> exists f2 t2, b_from o = Some f2 /\ b_to o = Some t2 /\
        ((f2 <= to /\ t2 >= from) \/ (f2 >= from /\ t2 <= to)).
Proof.
  destruct (b_from o) as [f2 |] eqn:Hf; [destruct (b_to o) as [t2 |] eqn:Ht |].
  - rewrite (overlap_OR_dates from to o f2 t2 Hf Ht). split.
    + intros H. exists f2, t2. auto.
    + intros (f & t & [= <-] & [= <-] & H). exact H.
  - rewrite overlap_OR_null by (right; exact Ht).
    split; [discriminate | intros (f & t & _ & [=] & _)].
  - rewrite overlap_OR_null by (left; exact Hf).
    split; [discriminate | intros (f & t & [=] & _)].
Qed.

Lemma bookings_where_set (b : Booking) (from to : Z) :
  b_from b = Some from -> b_to b = Some to ->
  bookings_where b
  = [ Prisma.Field (Prisma.status_in ["RESERVED"; "ONGOING"; "OVERDUE"]);
      overlap_OR from to ].
Proof. intros Hf Ht. unfold bookings_where. rewrite Hf, Ht. reflexivity. Qed.

Lemma bookings_where_unset (b : Booking) :
  b_from b = None \/ b_to b = None -> bookings_where b = [].
Proof.
  intros [H | H]; unfold bookings_where; rewrite H;
    [| destruct (b_from b)]; reflexivity.
Qed.

Lemma bookings_where_matches (b : Booking) (from to : Z) (o : Booking) :
  b_from b = Some from -> b_to b = Some to ->
  Prisma.where_matches (bookings_where b) o = true
  <-> active_status o /\
      exists f2 t2, b_from o = Some f2 /\ b_to o = Some t2 /\
        ((f2 <= to /\ t2 >= from) \/ (f2 >= from /\ t2 <= to)).
Proof.
  intros Hf Ht. rewrite (bookings_where_set b from to Hf Ht).
  unfold Prisma.where_matches. cbn [forallb].
  rewrite andb_true_r, andb_true_iff.
  change (Prisma.key_matches (Prisma.Field ?f) o) with (Prisma.field_matches f o).
  rewrite status_in_active, overlap_OR_matches. reflexivity.
Qed.

(** ** What [findMany] returns *)

Lemma include_bookings_elem (w : Prisma.BookingWhereInput) (a : Asset) (o : Booking) :
  o ∈ a_bookings (Prisma.include_bookings w a)
  <-> o ∈ a_bookings a /\ Prisma.where_matches w o = true.
Proof. cbn. rewrite list_elem_of_filter. tauto. Qed.

Lemma include_bookings_all (a : Asset) : Prisma.include_bookings [] a = a.
Proof.
  destruct a as [i t c cu l q bs]. unfold Prisma.include_bookings. cbn.
  f_equal. induction bs as [| o bs IH]; [reflexivity |].
  rewrite filter_cons_True by reflexivity. rewrite IH. reflexivity.
Qed.

Lemma asset_findMany_all (table : list Asset) (ids : list string) :
  Prisma.asset_findMany table
    {| Prisma.where_id_in := ids; Prisma.include_bookings_where := [] |}
  = filter (fun a => a_id a ∈ ids) table.
Proof.
  unfold Prisma.asset_findMany. cbn.
  induction (filter (fun a => a_id a ∈ ids) table) as [| a l IH]; [reflexivity |].
  cbn. rewrite include_bookings_all. f_equal. exact IH.
Qed.

Lemma asset_findMany_rows (table : list Asset) (q : Prisma.AssetFindManyArgs) :
  Forall2
    (fun a row =>
       a_id a = a_id row /\
       forall o, o ∈ a_bookings a
                 <-> o ∈ a_bookings row /\
                     Prisma.where_matches (Prisma.include_bookings_where q) o = true)
    (Prisma.asset_findMany table q)
    (filter (fun a => a_id a ∈ Prisma.where_id_in q) table).
Proof.
  unfold Prisma.asset_findMany.
  induction (filter (fun a => a_id a ∈ Prisma.where_id_in q) table) as [| a l IH].
  - constructor.
  - cbn [map]. constructor; [| exact IH].
    split; [reflexivity |]. intros o. apply include_bookings_elem.
Qed.

(** ** Properties of [fetchAllPdfRelatedData] *)

(** C1. When the role is SELF_SERVICE and the custodian of the fetched
    booking is not the calling user, the call rejects with the structured
    error of status 403, label Booking and [shouldBeCaptured] false, and
    the only collaborator called is [getBooking]: neither the asset nor
    the organization query is issued. *)
Theorem C1_self_service_not_custodian
    (w : World) (bookingId organizationId userId : string)
    (role : option string) (b : BookingWithAssets) :
  getBooking w bookingId organizationId = Ok (Some b) ->
  role = Some SELF_SERVICE ->
  b_custodianUserId (bk b) ≠ Some userId ->
  let run := Async.run (fetchAllPdfRelatedData w bookingId organizationId userId role) in
  snd run = Throw (ShelfError None "You are not authorized to view this booking"
                             403 "Booking" false) /\
  fst run = [ev_getBooking bookingId organizationId] /\
  Forall (fun ev => is_db_query ev = false) (fst run).
Proof.
  intros Hsome Hrole Hcust run. subst run.
  rewrite (fetch_denied w bookingId organizationId userId role b Hsome (conj Hrole Hcust)).
  cbn [fst snd]. split; [reflexivity |]. split; [reflexivity |].
  constructor; [reflexivity | constructor].
Qed.

Lemma C1_witness :
  let run := Async.run (fetchAllPdfRelatedData Sample.world "b1" "o1" "u2"
                                               (Some SELF_SERVICE)) in
  snd run = Throw (ShelfError None "You are not authorized to view this booking"
                             403 "Booking" false) /\
  fst run = [ev_getBooking "b1" "o1"] /\
  Forall (fun ev => is_db_query ev = false) (fst run).
Proof.
  apply (C1_self_service_not_custodian Sample.world "b1" "o1" "u2" (Some SELF_SERVICE)
           (mkBookingWithAssets Sample.b1 [mkAssetRef "a1"])).
  - reflexivity.
  - reflexivity.
  - discriminate.
Defined.

(** C9. When [getBooking] finds no booking for the id and organization,
    the call rejects with the plain [Error] saying Booking not found, and
    nothing is fetched after [getBooking]. *)
Theorem C9_booking_not_found
    (w : World) (bookingId organizationId userId : string) (role : option string) :
  getBooking w bookingId organizationId = Ok None ->
  Async.run (fetchAllPdfRelatedData w bookingId organizationId userId role)
  = ([ev_getBooking bookingId organizationId], Throw (Error "Booking not found")).
Proof. apply fetch_not_found. Qed.

Lemma C9_witness :
  Async.run (fetchAllPdfRelatedData Sample.world "b9" "o1" "u1" None)
  = ([ev_getBooking "b9" "o1"], Throw (Error "Booking not found")).
Proof.
  apply (C9_booking_not_found Sample.world "b9" "o1" "u1" None). reflexivity.
Defined.

(** C2. For [from1 <= to1] and [from2 <= to2], the [OR] of the overlap
    filter, read on a booking that runs from [from2] to [to2], is the
    disjunction (from2 <= to1 and to2 >= from1) or (from2 >= from1 and
    to2 <= to1), and that disjunction is equivalent to the single test
    from1 <= to2 and to1 >= from2. *)
Theorem C2_overlap_disjunction_is_intersection
    (from1 to1 from2 to2 : Z) (o : Booking) :
  b_from o = Some from2 ->
  b_to o = Some to2 ->
  from1 <= to1 ->
  from2 <= to2 ->
  (Prisma.key_matches (overlap_OR from1 to1) o = true
   <-> (from2 <= to1 /\ to2 >= from1) \/ (from2 >= from1 /\ to2 <= to1)) /\
  ((from2 <= to1 /\ to2 >= from1) \/ (from2 >= from1 /\ to2 <= to1)
   <-> from1 <= to2 /\ to1 >= from2).
Proof.
  intros Hf Ht H1 H2. split.
  - apply overlap_OR_dates; assumption.
  - lia.
Qed.

Lemma C2_witness :
  (Prisma.key_matches (overlap_OR (Sample.jan 1) (Sample.jan 5)) Sample.b2 = true
   <-> (Sample.jan 3 <= Sample.jan 5 /\ Sample.jan 10 >= Sample.jan 1)
       \/ (Sample.jan 3 >= Sample.jan 1 /\ Sample.jan 10 <= Sample.jan 5)) /\
  ((Sample.jan 3 <= Sample.jan 5 /\ Sample.jan 10 >= Sample.jan 1)
   \/ (Sample.jan 3 >= Sample.jan 1 /\ Sample.jan 10 <= Sample.jan 5)
   <-> Sample.jan 1 <= Sample.jan 10 /\ Sample.jan 5 >= Sample.jan 3).
Proof.
  apply (C2_overlap_disjunction_is_intersection
           (Sample.jan 1) (Sample.jan 5) (Sample.jan 3) (Sample.jan 10) Sample.b2).
  - reflexivity.
  - reflexivity.
  - vm_compute. discriminate.
  - vm_compute. discriminate.
Defined.

(** C3 (counterexample). For the booking b1 (1 to 5 January) the asset a1
    comes back with the stored booking b6, which is RESERVED and runs from
    6 January back to 2 January: the second alternative of [OR] admits it
    although the inclusive test fails (5 January >= 6 January is false). *)
Lemma C3_counterexample :
  exists r a,
    snd (Async.run (fetchAllPdfRelatedData Sample.world "b1" "o1" "u1" (Some "ADMIN")))
    = Ok r /\
    b_from (bk (booking r)) = Some (Sample.jan 1) /\
    b_to (bk (booking r)) = Some (Sample.jan 5) /\
    a ∈ assets r /\
    Sample.b6 ∈ a_bookings a /\
    Prisma.where_matches (bookings_where (bk (booking r))) Sample.b6 = true /\
    active_status Sample.b6 /\
    ~ intersects (Sample.jan 1) (Sample.jan 5) Sample.b6.
Proof.
  eexists. exists (Prisma.include_bookings (bookings_where Sample.b1) Sample.a1).
  split; [vm_compute; reflexivity |].
  cbn [booking bk]. split; [reflexivity |]. split; [reflexivity |].
  split; [vm_compute; left |].
  split; [vm_compute; do 2 right; left |].
  split; [vm_compute; reflexivity |].
  split; [left; reflexivity |].
  intros (f2 & t2 & [= <-] & [= <-] & _ & H). vm_compute in H. apply H. reflexivity.
Qed.

(** C3, amended. When the fetched booking has both [from] and [to] set,
    every asset query of the call carries a bookings filter (and a caller
    who passes the role check does reach that query) which admits
    exactly the bookings whose status is RESERVED, ONGOING or OVERDUE,
    whose own dates are both set, and for which (otherFrom <= to and
    otherTo >= from) or (otherFrom >= from and otherTo <= to); for a
    booking with otherFrom <= otherTo that is exactly the inclusive
    intersection from <= otherTo and to >= otherFrom.  When the call
    resolves, each returned asset carries exactly the bookings of its row
    that the filter admits. *)
Theorem C3_overlap_filter
    (w : World) (bookingId organizationId userId : string)
    (role : option string) (b : BookingWithAssets) (from to : Z) :
  getBooking w bookingId organizationId = Ok (Some b) ->
  b_from (bk b) = Some from ->
  b_to (bk b) = Some to ->
  let run := Async.run (fetchAllPdfRelatedData w bookingId organizationId userId role) in
  let W := bookings_where (bk b) in
  (forall q, In (ev_asset_findMany q) (fst run) -> Prisma.include_bookings_where q = W) /\
  (~ denied role b userId -> In (ev_asset_findMany (asset_query b)) (fst run)) /\
  (forall o,
     Prisma.where_matches W o = true
     <-> active_status o /\
         exists f2 t2, b_from o = Some f2 /\ b_to o = Some t2 /\
           ((f2 <= to /\ t2 >= from) \/ (f2 >= from /\ t2 <= to))) /\
  (forall o f2 t2,
     b_from o = Some f2 -> b_to o = Some t2 -> f2 <= t2 ->
     (Prisma.where_matches W o = true <-> active_status o /\ intersects from to o)) /\
  (forall r,
     snd run = Ok r ->
     Forall2
       (fun a row =>
          a_id a = a_id row /\
          forall o, o ∈ a_bookings a
                    <-> o ∈ a_bookings row /\ Prisma.where_matches W o = true)
       (assets r)
       (filter (fun a => a_id a ∈ map ref_id (bk_assets b)) (asset_table w))).
Proof.
  intros Hsome Hf Ht run W. subst run W.
  split; [| split; [| split; [| split]]].
  - intros q Hq.
    rewrite (fetch_asset_queries w bookingId organizationId userId role b q Hsome Hq).
    reflexivity.
  - intros Hden.
    destruct (fetch_allowed_log w bookingId organizationId userId role b Hsome Hden)
      as [rest ->].
    right. left. reflexivity.
  - intros o. apply bookings_where_matches; assumption.
  - intros o f2 t2 Hof Hot Hle.
    rewrite (bookings_where_matches (bk b) from to o Hf Ht).
    unfold intersects. split.
    + intros (Hact & f & t & Hf' & Ht' & Hcase). split; [exact Hact |].
      exists f, t. rewrite Hof in Hf'. rewrite Hot in Ht'.
      injection Hf' as <-. injection Ht' as <-.
      repeat split; try assumption; lia.
    + intros (Hact & f & t & Hf' & Ht' & H1 & H2). split; [exact Hact |].
      exists f, t. repeat split; try assumption. left. lia.
  - intros r Hr.
    destruct (fetch_allowed_assets w bookingId organizationId userId role b r Hsome Hr)
      as [_ ->].
    apply (asset_findMany_rows (asset_table w) (asset_query b)).
Qed.

Lemma C3_witness :
  let b := mkBookingWithAssets Sample.b1 [mkAssetRef "a1"] in
  let run := Async.run (fetchAllPdfRelatedData Sample.world "b1" "o1" "u1" (Some "ADMIN")) in
  let W := bookings_where Sample.b1 in
  (forall q, In (ev_asset_findMany q) (fst run) -> Prisma.include_bookings_where q = W) /\
  (~ denied (Some "ADMIN") b "u1" -> In (ev_asset_findMany (asset_query b)) (fst run)) /\
  (forall o,
     Prisma.where_matches W o = true
     <-> active_status o /\
         exists f2 t2, b_from o = Some f2 /\ b_to o = Some t2 /\
           ((f2 <= Sample.jan 5 /\ t2 >= Sample.jan 1)
            \/ (f2 >= Sample.jan 1 /\ t2 <= Sample.jan 5))) /\
  (forall o f2 t2,
     b_from o = Some f2 -> b_to o = Some t2 -> f2 <= t2 ->
     (Prisma.where_matches W o = true
      <-> active_status o /\ intersects (Sample.jan 1) (Sample.jan 5) o)) /\
  (forall r,
     snd run = Ok r ->
     Forall2
       (fun a row =>
          a_id a = a_id row /\
          forall o, o ∈ a_bookings a
                    <-> o ∈ a_bookings row /\ Prisma.where_matches W o = true)
       (assets r)
       (filter (fun a => a_id a ∈ ["a1"]) (asset_table Sample.world))).
Proof.
  apply (C3_overlap_filter Sample.world "b1" "o1" "u1" (Some "ADMIN")
           (mkBookingWithAssets Sample.b1 [mkAssetRef "a1"])
           (Sample.jan 1) (Sample.jan 5)).
  - reflexivity.
  - reflexivity.
  - reflexivity.
Defined.

(** C4. When the fetched booking's [from] and [to] are not both set, the
    where-object of the bookings include is the empty object: it admits
    every booking, every asset query of the call carries it (and a caller
    who passes the role check does reach that query), and when the call
    resolves the assets are the rows of the table with the booked ids,
    each with all of its bookings. *)
Theorem C4_no_filter_without_dates
    (w : World) (bookingId organizationId userId : string)
    (role : option string) (b : BookingWithAssets) :
  getBooking w bookingId organizationId = Ok (Some b) ->
  b_from (bk b) = None \/ b_to (bk b) = None ->
  let run := Async.run (fetchAllPdfRelatedData w bookingId organizationId userId role) in
  bookings_where (bk b) = [] /\
  (forall o, Prisma.where_matches (bookings_where (bk b)) o = true) /\
  (forall q, In (ev_asset_findMany q) (fst run) -> Prisma.include_bookings_where q = []) /\
  (~ denied role b userId ->
   In (ev_asset_findMany
         {| Prisma.where_id_in := map ref_id (bk_assets b);
            Prisma.include_bookings_where := [] |})
      (fst run)) /\
  (forall r,
     snd run = Ok r ->
     assets r = filter (fun a => a_id a ∈ map ref_id (bk_assets b)) (asset_table w)).
Proof.
  intros Hsome Hunset run. subst run.
  pose proof (bookings_where_unset (bk b) Hunset) as HW.
  split; [exact HW |]. split; [| split; [| split]].
  - intros o. rewrite HW. reflexivity.
  - intros q Hq.
    rewrite (fetch_asset_queries w bookingId organizationId userId role b q Hsome Hq).
    exact HW.
  - intros Hden.
    destruct (fetch_allowed_log w bookingId organizationId userId role b Hsome Hden)
      as [rest ->].
    right. left. unfold asset_query. rewrite HW. reflexivity.
  - intros r Hr.
    destruct (fetch_allowed_assets w bookingId organizationId userId role b r Hsome Hr)
      as [_ ->].
    unfold asset_query. rewrite HW. apply asset_findMany_all.
Qed.

Lemma C4_witness :
  let run := Async.run (fetchAllPdfRelatedData Sample.world "b5" "o1" "u1" None) in
  bookings_where Sample.b5 = [] /\
  (forall o, Prisma.where_matches (bookings_where Sample.b5) o = true) /\
  (forall q, In (ev_asset_findMany q) (fst run) -> Prisma.include_bookings_where q = []) /\
  (~ denied None (mkBookingWithAssets Sample.b5 [mkAssetRef "a1"]) "u1" ->
   In (ev_asset_findMany
         {| Prisma.where_id_in := ["a1"]; Prisma.include_bookings_where := [] |})
      (fst run)) /\
  (forall r,
     snd run = Ok r ->
     assets r = filter (fun a => a_id a ∈ ["a1"]) (asset_table Sample.world)).
Proof.
  apply (C4_no_filter_without_dates Sample.world "b5" "o1" "u1" None
           (mkBookingWithAssets Sample.b5 [mkAssetRef "a1"])).
  - reflexivity.
  - left. reflexivity.
Defined.

(** The sample calls of C3 and C4 resolve, with the bookings the filter
    leaves: b1 and b2 (and the inverted b6) under the window of b1, all
    six under the dateless b5. *)
Example fetch_b1_bookings :
  (fun x => match snd x with
            | Ok r => Some (map (fun a => map b_id (a_bookings a)) (assets r))
            | Throw _ => None
            end)
    (Async.run (fetchAllPdfRelatedData Sample.world "b1" "o1" "u1" (Some "ADMIN")))
  = Some [["b1"; "b2"; "b6"]].
Proof. vm_compute. reflexivity. Qed.

Example fetch_b5_bookings :
  (fun x => match snd x with
            | Ok r => Some (map (fun a => map b_id (a_bookings a)) (assets r))
            | Throw _ => None
            end)
    (Async.run (fetchAllPdfRelatedData Sample.world "b5" "o1" "u1" None))
  = Some [["b1"; "b2"; "b3"; "b4"; "b5"; "b6"]].
Proof. vm_compute. reflexivity. Qed.

(** ** Running [generatePdfContent] *)

(** The calls made and the outcome, by the first call that rejects. *)
Lemma generate_run (p : Puppeteer) (htmlContent : string)
    (headerTemplate : option string) (styles : option (gmap string string)) :
  Async.run (generatePdfContent p htmlContent headerTemplate styles)
  = match launch p with
    | Throw e => ([ev_launch], Throw e)
    | Ok b =>
        match newPage p b with
        | Throw e => ([ev_launch; ev_newPage b], Throw e)
        | Ok pg =>
            let load := ev_setContent pg htmlContent "networkidle0" in
            match setContent p pg htmlContent "networkidle0" with
            | Throw e => ([ev_launch; ev_newPage b; load], Throw e)
            | Ok _ =>
                let opts := pdf_options headerTemplate styles in
                match pdf p pg opts with
                | Throw e => ([ev_launch; ev_newPage b; load; ev_pdf pg opts], Throw e)
                | Ok pdfBuffer =>
                    ([ev_launch; ev_newPage b; load; ev_pdf pg opts; ev_close b],
                     match close p b with
                     | Ok _ => Ok pdfBuffer
                     | Throw e => Throw e
                     end)
                end
            end
        end
    end.
Proof.
  unfold Async.run, generatePdfContent, Async.bind, Async.call. cbn.
  destruct (launch p) as [b | e]; [| reflexivity].
  destruct (newPage p b) as [pg | e]; [| reflexivity].
  destruct (setContent p pg htmlContent "networkidle0") as [u | e]; [| reflexivity].
  destruct (pdf p pg (pdf_options headerTemplate styles)) as [buf | e]; [| reflexivity].
  destruct (close p b) as [v | e]; reflexivity.
Qed.

(** Every [pdf] call of a run carries the options built from the
    arguments. *)
Lemma generate_pdf_options (p : Puppeteer) (htmlContent : string)
    (headerTemplate : option string) (styles : option (gmap string string))
    (pg : Page) (opts : PDFOptions) :
  In (ev_pdf pg opts)
     (fst (Async.run (generatePdfContent p htmlContent headerTemplate styles))) ->
  opts = pdf_options headerTemplate styles.
Proof.
  rewrite generate_run.
  destruct (launch p) as [b | e]; cbn.
  2: { intros [H | []]; discriminate H. }
  destruct (newPage p b) as [pg' | e]; cbn.
  2: { intros [H | [H | []]]; discriminate H. }
  destruct (setContent p pg' htmlContent "networkidle0") as [u | e]; cbn.
  2: { intros [H | [H | [H | []]]]; discriminate H. }
  destruct (pdf p pg' (pdf_options headerTemplate styles)) as [buf | e]; cbn.
  - intros [H | [H | [H | [H | [H | []]]]]]; try discriminate H.
    injection H as _ <-. reflexivity.
  - intros [H | [H | [H | [H | []]]]]; try discriminate H.
    injection H as _ <-. reflexivity.
Qed.

(** Once the content is set, the [pdf] call is made. *)
Lemma generate_reaches_pdf (p : Puppeteer) (htmlContent : string)
    (headerTemplate : option string) (styles : option (gmap string string))
    (b : Browser) (pg : Page) :
  launch p = Ok b ->
  newPage p b = Ok pg ->
  setContent p pg htmlContent "networkidle0" = Ok tt ->
  In (ev_pdf pg (pdf_options headerTemplate styles))
     (fst (Async.run (generatePdfContent p htmlContent headerTemplate styles))).
Proof.
  intros Hl Hn Hs. rewrite generate_run, Hl, Hn, Hs. cbn zeta.
  destruct (pdf p pg _); cbn; auto.
Qed.

Lemma or_string_id (s : string) : Js.or_string (Some s) "" = s.
Proof.
  unfold Js.or_string. destruct (String.eqb s "") eqn:E; [| reflexivity].
  apply String.eqb_eq in E. symmetry. exact E.
Qed.

(** ** Properties of [generatePdfContent] *)

(** A concrete list of methods has no repetition. *)
Ltac distinct_methods :=
  repeat (apply NoDup_cons_2;
          [rewrite ?elem_of_cons, elem_of_nil; intuition discriminate |]);
  apply NoDup_nil_2.

(** C5. The browser is closed on the success path and only there: when
    launch, page creation, content setting and export all resolve, the
    [close] call on the launched browser is made, as the last call; when
    setting the content or exporting the PDF rejects, the call rejects
    with that same error and no [close] call is made; a [close] call is
    made only after launch, page creation, content setting and export
    have all resolved; and no puppeteer method is called twice (nothing
    is retried). *)
Theorem C5_close_only_on_success (p : Puppeteer) (htmlContent : string)
    (headerTemplate : option string) (styles : option (gmap string string)) :
  let run := Async.run (generatePdfContent p htmlContent headerTemplate styles) in
  (forall b pg pdfBuffer,
     launch p = Ok b -> newPage p b = Ok pg ->
     setContent p pg htmlContent "networkidle0" = Ok tt ->
     pdf p pg (pdf_options headerTemplate styles) = Ok pdfBuffer ->
     fst run = [ ev_launch; ev_newPage b;
                 ev_setContent pg htmlContent "networkidle0";
                 ev_pdf pg (pdf_options headerTemplate styles); ev_close b ]) /\
  (forall b pg e,
     launch p = Ok b -> newPage p b = Ok pg ->
     setContent p pg htmlContent "networkidle0" = Throw e ->
     snd run = Throw e /\ forall b', ~ In (ev_close b') (fst run)) /\
  (forall b pg e,
     launch p = Ok b -> newPage p b = Ok pg ->
     setContent p pg htmlContent "networkidle0" = Ok tt ->
     pdf p pg (pdf_options headerTemplate styles) = Throw e ->
     snd run = Throw e /\ forall b', ~ In (ev_close b') (fst run)) /\
  (forall b',
     In (ev_close b') (fst run) ->
     exists pg pdfBuffer,
       launch p = Ok b' /\ newPage p b' = Ok pg /\
       setContent p pg htmlContent "networkidle0" = Ok tt /\
       pdf p pg (pdf_options headerTemplate styles) = Ok pdfBuffer) /\
  NoDup (map method_of (fst run)).
Proof.
  intros run. subst run. rewrite generate_run. cbv zeta.
  split; [| split; [| split; [| split]]].
  - intros b pg buf -> -> -> ->. reflexivity.
  - intros b pg e -> -> ->. cbn. split; [reflexivity |].
    intros b' [H | [H | [H | []]]]; discriminate H.
  - intros b pg e -> -> -> ->. cbn. split; [reflexivity |].
    intros b' [H | [H | [H | [H | []]]]]; discriminate H.
  - intros b'.
    destruct (launch p) as [b | e] eqn:Hl; cbn.
    2: { intros [H | []]; discriminate H. }
    destruct (newPage p b) as [pg | e] eqn:Hn; cbn.
    2: { intros [H | [H | []]]; discriminate H. }
    destruct (setContent p pg htmlContent "networkidle0") as [[] | e] eqn:Hs; cbn.
    2: { intros [H | [H | [H | []]]]; discriminate H. }
    destruct (pdf p pg (pdf_options headerTemplate styles)) as [buf | e] eqn:Hp; cbn.
    2: { intros [H | [H | [H | [H | []]]]]; discriminate H. }
    intros [H | [H | [H | [H | [H | []]]]]]; try discriminate H.
    injection H as <-. exists pg, buf. repeat split; assumption.
  - destruct (launch p) as [b | e]; cbn.
    2: { distinct_methods. }
    destruct (newPage p b) as [pg | e]; cbn.
    2: { distinct_methods. }
    destruct (setContent p pg htmlContent "networkidle0") as [u | e]; cbn.
    2: { distinct_methods. }
    destruct (pdf p pg (pdf_options headerTemplate styles)) as [buf | e]; cbn;
      distinct_methods.
Qed.

Lemma C5_witness :
  fst (Async.run (generatePdfContent SampleBrowser.chrome "<p>list</p>" None None))
  = [ ev_launch; ev_newPage 1%nat; ev_setContent 7%nat "<p>list</p>" "networkidle0";
      ev_pdf 7%nat (pdf_options None None); ev_close 1%nat ]
  /\
  (snd (Async.run (generatePdfContent SampleBrowser.stalls "<p>list</p>" None None))
   = Throw (Error "Navigation timeout") /\
   forall b', ~ In (ev_close b')
                   (fst (Async.run (generatePdfContent SampleBrowser.stalls
                                                       "<p>list</p>" None None)))) /\
  (snd (Async.run (generatePdfContent SampleBrowser.jams "<p>list</p>" None None))
   = Throw (Error "Printing failed") /\
   forall b', ~ In (ev_close b')
                   (fst (Async.run (generatePdfContent SampleBrowser.jams
                                                       "<p>list</p>" None None)))).
Proof.
  split; [| split].
  - apply (proj1 (C5_close_only_on_success SampleBrowser.chrome "<p>list</p>" None None)
             1%nat 7%nat [Byte.x25; Byte.x50; Byte.x44; Byte.x46]); reflexivity.
  - apply (proj1 (proj2 (C5_close_only_on_success SampleBrowser.stalls "<p>list</p>"
                                                  None None))
             1%nat 7%nat (Error "Navigation timeout")); reflexivity.
  - apply (proj1 (proj2 (proj2 (C5_close_only_on_success SampleBrowser.jams "<p>list</p>"
                                                         None None)))
             1%nat 7%nat (Error "Printing failed")); reflexivity.
Defined.

Example generate_chrome :
  Async.run (generatePdfContent SampleBrowser.chrome "<p>list</p>" (Some "<b>h</b>") None)
  = ([ev_launch; ev_newPage 1%nat; ev_setContent 7%nat "<p>list</p>" "networkidle0";
      ev_pdf 7%nat (pdf_options (Some "<b>h</b>") None); ev_close 1%nat],
     Ok [Byte.x25; Byte.x50; Byte.x44; Byte.x46]).
Proof. reflexivity. Qed.

Example generate_stalls :
  Async.run (generatePdfContent SampleBrowser.stalls "<p>list</p>" None None)
  = ([ev_launch; ev_newPage 1%nat; ev_setContent 7%nat "<p>list</p>" "networkidle0"],
     Throw (Error "Navigation timeout")).
Proof. reflexivity. Qed.

(** C6. A header template string given to [generatePdfContent] is the
    [headerTemplate] of the options of every [pdf] call of the run,
    unchanged; when the argument is omitted or undefined, the empty string
    is; and the [pdf] call is made as soon as launch, page creation and
    content setting resolve. *)
Theorem C6_header_template_passed_through (p : Puppeteer) (htmlContent : string)
    (styles : option (gmap string string)) :
  (forall s pg opts,
     In (ev_pdf pg opts)
        (fst (Async.run (generatePdfContent p htmlContent (Some s) styles))) ->
     headerTemplate opts = s) /\
  (forall pg opts,
     In (ev_pdf pg opts)
        (fst (Async.run (generatePdfContent p htmlContent None styles))) ->
     headerTemplate opts = "") /\
  (forall h b pg,
     launch p = Ok b -> newPage p b = Ok pg ->
     setContent p pg htmlContent "networkidle0" = Ok tt ->
     In (ev_pdf pg (pdf_options h styles))
        (fst (Async.run (generatePdfContent p htmlContent h styles)))).
Proof.
  split; [| split].
  - intros s pg opts Hin.
    rewrite (generate_pdf_options p htmlContent (Some s) styles pg opts Hin).
    apply or_string_id.
  - intros pg opts Hin.
    rewrite (generate_pdf_options p htmlContent None styles pg opts Hin).
    reflexivity.
  - intros h b pg. apply generate_reaches_pdf.
Qed.

Lemma C6_witness :
  headerTemplate (pdf_options (Some "<b>h</b>") None) = "<b>h</b>".
Proof.
  apply (proj1 (C6_header_template_passed_through SampleBrowser.chrome "<p>list</p>" None)
           "<b>h</b>" 7%nat (pdf_options (Some "<b>h</b>") None)).
  apply (proj2 (proj2 (C6_header_template_passed_through SampleBrowser.chrome
                                                         "<p>list</p>" None))
           (Some "<b>h</b>") 1%nat 7%nat); reflexivity.
Defined.

(** C8. Once launch, page creation and content setting resolve, the PDF
    export is called, and the margin of the options of every [pdf] call
    of a run is the default margin (top 80px, bottom 30px, left 20px,
    right 20px and no other key) with every key of the styles record
    written over it: a key of the record has the value of the record,
    every other key has its default, and with no styles record the margin
    is the default one. *)
Theorem C8_margin_defaults_overridden (p : Puppeteer) (htmlContent : string)
    (h : option string) (styles : option (gmap string string)) :
  let log := fst (Async.run (generatePdfContent p htmlContent h styles)) in
  (forall b pg,
     launch p = Ok b -> newPage p b = Ok pg ->
     setContent p pg htmlContent "networkidle0" = Ok tt ->
     In (ev_pdf pg (pdf_options h styles)) log) /\
  (forall pg opts,
     In (ev_pdf pg opts) log ->
     margin opts = margin (pdf_options h styles) /\
     (styles = None -> margin opts = default_margin) /\
     (forall s k v, styles = Some s -> s !! k = Some v -> margin opts !! k = Some v) /\
     (forall s k, styles = Some s -> s !! k = None ->
                  margin opts !! k = default_margin !! k)) /\
  (default_margin !! "top" = Some "80px" /\
   default_margin !! "bottom" = Some "30px" /\
   default_margin !! "left" = Some "20px" /\
   default_margin !! "right" = Some "20px" /\
   forall k, k ∉ ["top"; "bottom"; "left"; "right"] -> default_margin !! k = None) /\
  margin (pdf_options h None) = default_margin /\
  (forall s k v, s !! k = Some v -> margin (pdf_options h (Some s)) !! k = Some v) /\
  (forall s k, s !! k = None ->
               margin (pdf_options h (Some s)) !! k = default_margin !! k).
Proof.
  intros log. subst log.
  assert (margin (pdf_options h None) = default_margin) as Hnone
    by (cbn; unfold spread; apply (left_id_L ∅ (∪))).
  assert (forall s k v, s !! k = Some v -> margin (pdf_options h (Some s)) !! k = Some v)
    as Hset
    by (intros s k v Hk; cbn; unfold spread; apply lookup_union_Some_l; exact Hk).
  assert (forall s k, s !! k = None ->
                      margin (pdf_options h (Some s)) !! k = default_margin !! k)
    as Hunset
    by (intros s k Hk; cbn; unfold spread; apply lookup_union_r; exact Hk).
  split; [| split; [| split; [| split; [| split]]]].
  - intros b pg. apply generate_reaches_pdf.
  - intros pg opts Hin.
    rewrite (generate_pdf_options p htmlContent h styles pg opts Hin).
    split; [reflexivity |]. split; [| split].
    + intros ->. exact Hnone.
    + intros s k v ->. apply Hset.
    + intros s k ->. apply Hunset.
  - unfold default_margin. repeat split; try reflexivity.
    intros k Hk. rewrite !not_elem_of_cons in Hk.
    destruct Hk as (H1 & H2 & H3 & H4 & _).
    rewrite !lookup_insert_ne by congruence. apply lookup_empty.
  - exact Hnone.
  - exact Hset.
  - exact Hunset.
Qed.

Lemma C8_witness :
  exists opts,
    In (ev_pdf 7%nat opts)
       (fst (Async.run (generatePdfContent SampleBrowser.chrome "<p>list</p>" None
                                           (Some SampleBrowser.styles)))) /\
    margin opts !! "top" = Some "120px" /\
    margin opts !! "bottom" = Some "30px" /\
    margin opts !! "padding" = Some "4px".
Proof.
  pose proof (C8_margin_defaults_overridden SampleBrowser.chrome "<p>list</p>" None
                (Some SampleBrowser.styles))
    as (Hreach & Hcall & (_ & Hbottom & _) & _).
  pose proof (Hreach 1%nat 7%nat eq_refl eq_refl eq_refl) as Hin.
  exists (pdf_options None (Some SampleBrowser.styles)).
  split; [exact Hin |].
  destruct (Hcall 7%nat _ Hin) as (_ & _ & Hset & Hunset).
  split; [| split].
  - apply (Hset SampleBrowser.styles); reflexivity.
  - rewrite (Hunset SampleBrowser.styles) by reflexivity. exact Hbottom.
  - apply (Hset SampleBrowser.styles); reflexivity.
Defined.

(** ** The header fragment *)

Lemma quote_free_app (s t : string) :
  quote_free s -> quote_free t -> quote_free (s +:+ t).
Proof.
  induction s as [| c s IH]; cbn; [auto |].
  intros [Hc Hs] Ht. split; [exact Hc | apply IH; assumption].
Qed.

Lemma until_quote_app (s rest : string) :
  quote_free s -> until_quote (s +:+ String "034"%char rest) = Some s.
Proof.
  induction s as [| c s IH].
  - reflexivity.
  - intros [Hc Hs]. apply Ascii.eqb_neq in Hc.
    change (String c s +:+ String "034"%char rest)
      with (String c (s +:+ String "034"%char rest)).
    cbn [until_quote]. rewrite Hc, (IH Hs). reflexivity.
Qed.

(** The template has its first [img] tag at the end of [header_open]. *)
Lemma after_header_open (rest : string) :
  after ("<img src=" +:+ dq) (header_open +:+ rest) = Some rest.
Proof. vm_compute. reflexivity. Qed.

Lemma img_src_header (src name : string) :
  quote_free src ->
  img_src (header_open +:+ src +:+ header_middle +:+ name +:+ header_close) = Some src.
Proof.
  intros Hsrc. unfold img_src. rewrite after_header_open.
  change (header_middle +:+ name +:+ header_close)
    with (String "034"%char
            (String.concat nl
               [ " alt=" +:+ dq +:+ "logo" +:+ dq +:+ ">";
                 "            <span class=" +:+ dq +:+ "text" +:+ dq +:+ ">" ]
             +:+ name +:+ header_close)).
  apply until_quote_app. exact Hsrc.
Qed.

Lemma digit_quote_free (n : N) : Base64.digit n <> "034"%char.
Proof.
  unfold Base64.digit. generalize (N.to_nat n) as k. intros k.
  do 64 (destruct k as [| k]; [cbn; discriminate |]).
  cbn. discriminate.
Qed.

(** Induction three bytes at a time, as [Base64.encode] recurses. *)
Lemma list_ind3 {A : Type} (P : list A -> Prop) :
  P [] ->
  (forall a, P [a]) ->
  (forall a b, P [a; b]) ->
  (forall a b c l, P l -> P (a :: b :: c :: l)) ->
  forall l, P l.
Proof.
  intros H0 H1 H2 H3.
  assert (forall l, P l /\ (forall a, P (a :: l)) /\ (forall a b, P (a :: b :: l)))
    as Hall.
  { induction l as [| c l (IH0 & IH1 & IH2)].
    - auto.
    - split; [exact (IH1 c) |]. split; [intros a; exact (IH2 a c) |].
      intros a b. apply H3. exact IH0. }
  intros l. apply Hall.
Qed.

Lemma encode_quote_free (l : list Byte.byte) : quote_free (Base64.encode l).
Proof.
  induction l as [| a | a b | a b c l IH] using list_ind3.
  - exact I.
  - cbn. repeat split; try apply digit_quote_free; discriminate.
  - cbn. repeat split; try apply digit_quote_free; discriminate.
  - cbn [Base64.encode quote_free].
    repeat split; try apply digit_quote_free. exact IH.
Qed.

Lemma base64Image_quote_free (organization : option Organization) :
  quote_free (base64Image organization).
Proof.
  unfold base64Image. destruct (orgImageBlob organization) as [blob |].
  - apply quote_free_app; [| apply encode_quote_free].
    cbn. repeat split; discriminate.
  - exact I.
Qed.

(** ** Base64 determines the bytes *)

Section Base64Facts.

Local Open Scope N_scope.

Ltac Zify.zify_post_hook ::= Z.to_euclidean_division_equations.

Lemma land_shiftl_low (a b k : N) : b < 2 ^ k -> N.land (N.shiftl a k) b = 0.
Proof.
  intros Hb. apply N.bits_inj. intros i. rewrite N.land_spec, N.bits_0.
  destruct (N.lt_ge_cases i k) as [Hlow | Hhigh].
  - rewrite (N.shiftl_spec_low a k i Hlow). reflexivity.
  - rewrite <- (N.mod_small b (2 ^ k) Hb).
    rewrite (N.mod_pow2_bits_high b k i Hhigh). apply andb_false_r.
Qed.

Lemma lor_shiftl_add (a b k : N) : b < 2 ^ k -> N.lor (N.shiftl a k) b = a * 2 ^ k + b.
Proof.
  intros Hb. pose proof (land_shiftl_low a b k Hb) as H0.
  rewrite <- (N.lxor_lor _ _ H0), <- (N.add_nocarry_lxor _ _ H0).
  rewrite N.shiftl_mul_pow2. reflexivity.
Qed.

Lemma sextet_arith (k n : N) : Base64.sextet k n = (n / 2 ^ k) mod 64.
Proof.
  unfold Base64.sextet. rewrite N.shiftr_div_pow2.
  change 63 with (N.ones 6). rewrite N.land_ones. reflexivity.
Qed.

Lemma group_arith (a b c : Byte.byte) :
  Base64.group a b c = Byte.to_N a * 65536 + Byte.to_N b * 256 + Byte.to_N c.
Proof.
  unfold Base64.group.
  pose proof (Byte.to_N_bounded b) as Hb. pose proof (Byte.to_N_bounded c) as Hc.
  rewrite (lor_shiftl_add (Byte.to_N b) (Byte.to_N c) 8) by (cbn; lia).
  rewrite (lor_shiftl_add (Byte.to_N a) _ 16) by (cbn; lia).
  cbn. lia.
Qed.

Lemma quad_arith (v0 v1 v2 v3 : N) :
  v1 < 64 -> v2 < 64 -> v3 < 64 ->
  Base64.quad v0 v1 v2 v3 = ((v0 * 64 + v1) * 64 + v2) * 64 + v3.
Proof.
  intros H1 H2 H3. unfold Base64.quad.
  rewrite (lor_shiftl_add v2 v3 6) by (cbn; lia).
  rewrite (lor_shiftl_add v1 _ 12) by (cbn; lia).
  rewrite (lor_shiftl_add v0 _ 18) by (cbn; lia).
  cbn. lia.
Qed.

Lemma byte_at_arith (k n : N) (b : Byte.byte) :
  (n / 2 ^ k) mod 256 = Byte.to_N b -> Base64.byte_at k n = b.
Proof.
  intros H. unfold Base64.byte_at. rewrite N.shiftr_div_pow2.
  change 255 with (N.ones 8). rewrite N.land_ones. change (2 ^ 8) with 256.
  rewrite H, Byte.of_to_N. reflexivity.
Qed.

(** A 24-bit group is its four sextets. *)
Lemma quad_sextets (n : N) :
  n < 16777216 ->
  Base64.quad (Base64.sextet 18 n) (Base64.sextet 12 n)
              (Base64.sextet 6 n) (Base64.sextet 0 n) = n.
Proof.
  intros Hn. rewrite !sextet_arith.
  rewrite quad_arith by (apply N.mod_lt; discriminate).
  cbn. lia.
Qed.

Lemma group_bound (a b c : Byte.byte) : Base64.group a b c < 16777216.
Proof.
  rewrite group_arith.
  pose proof (Byte.to_N_bounded a). pose proof (Byte.to_N_bounded b).
  pose proof (Byte.to_N_bounded c). lia.
Qed.

Lemma group_bytes (a b c : Byte.byte) :
  Base64.byte_at 16 (Base64.group a b c) = a /\
  Base64.byte_at 8 (Base64.group a b c) = b /\
  Base64.byte_at 0 (Base64.group a b c) = c.
Proof.
  pose proof (Byte.to_N_bounded a). pose proof (Byte.to_N_bounded b).
  pose proof (Byte.to_N_bounded c).
  repeat split; apply byte_at_arith; rewrite group_arith; cbn; lia.
Qed.

Lemma sextet_bound (k n : N) : Base64.sextet k n < 64.
Proof. rewrite sextet_arith. apply N.mod_lt. discriminate. Qed.

(** Every 6-bit value has its own character, which is not the padding. *)
Lemma digit_value (n : N) :
  n < 64 ->
  Base64.value (Base64.digit n) = Some n /\
  Ascii.eqb (Base64.digit n) Base64.pad = false.
Proof.
  intros Hn.
  assert (forallb
            (fun k =>
               match Base64.value (Base64.digit (N.of_nat k)) with
               | Some m => N.eqb m (N.of_nat k)
               | None => false
               end
               && negb (Ascii.eqb (Base64.digit (N.of_nat k)) Base64.pad))
            (seq 0 64) = true) as Hall by (vm_compute; reflexivity).
  rewrite forallb_forall in Hall.
  specialize (Hall (N.to_nat n)). rewrite N2Nat.id in Hall.
  assert (In (N.to_nat n) (seq 0 64)) as Hin by (apply in_seq; lia).
  apply Hall in Hin. apply andb_true_iff in Hin as [Hv Hp].
  destruct (Base64.value (Base64.digit n)) as [m |]; [| discriminate].
  apply N.eqb_eq in Hv. subst m. split; [reflexivity |].
  apply negb_true_iff. exact Hp.
Qed.

(** The sextets that padding stands for are zero. *)
Lemma quad_one (a : Byte.byte) :
  let n := Base64.group a Byte.x00 Byte.x00 in
  Base64.quad (Base64.sextet 18 n) (Base64.sextet 12 n) 0 0 = n.
Proof.
  intros n. rewrite <- (quad_sextets n (group_bound _ _ _)) at 3.
  assert (Base64.sextet 6 n = 0 /\ Base64.sextet 0 n = 0) as [-> ->]; [| reflexivity].
  subst n. rewrite !sextet_arith, group_arith.
  pose proof (Byte.to_N_bounded a). cbn. lia.
Qed.

Lemma quad_two (a b : Byte.byte) :
  let n := Base64.group a b Byte.x00 in
  Base64.quad (Base64.sextet 18 n) (Base64.sextet 12 n) (Base64.sextet 6 n) 0 = n.
Proof.
  intros n. rewrite <- (quad_sextets n (group_bound _ _ _)) at 4.
  assert (Base64.sextet 0 n = 0) as ->; [| reflexivity].
  subst n. rewrite !sextet_arith, group_arith.
  pose proof (Byte.to_N_bounded a). pose proof (Byte.to_N_bounded b). cbn. lia.
Qed.

(** Decoding what [encode] wrote gives the bytes back. *)
Lemma decode_encode (l : list Byte.byte) : Base64.decode (Base64.encode l) = Some l.
Proof.
  induction l as [| a | a b | a b c l IH] using list_ind3.
  - reflexivity.
  - cbn [Base64.encode]. cbv zeta. set (n := Base64.group a Byte.x00 Byte.x00).
    destruct (digit_value _ (sextet_bound 18 n)) as [V0 _].
    destruct (digit_value _ (sextet_bound 12 n)) as [V1 _].
    cbn [Base64.decode]. rewrite V0, V1.
    change (Ascii.eqb Base64.pad Base64.pad) with true. cbn iota.
    subst n. rewrite quad_one. rewrite (proj1 (group_bytes a Byte.x00 Byte.x00)).
    reflexivity.
  - cbn [Base64.encode]. cbv zeta. set (n := Base64.group a b Byte.x00).
    destruct (digit_value _ (sextet_bound 18 n)) as [V0 _].
    destruct (digit_value _ (sextet_bound 12 n)) as [V1 _].
    destruct (digit_value _ (sextet_bound 6 n)) as [V2 P2].
    cbn [Base64.decode]. rewrite V0, V1, P2, V2.
    change (Ascii.eqb Base64.pad Base64.pad) with true. cbn iota zeta.
    subst n. rewrite quad_two.
    destruct (group_bytes a b Byte.x00) as (-> & -> & _). reflexivity.
  - cbn [Base64.encode]. cbv zeta. set (n := Base64.group a b c).
    destruct (digit_value _ (sextet_bound 18 n)) as [V0 _].
    destruct (digit_value _ (sextet_bound 12 n)) as [V1 _].
    destruct (digit_value _ (sextet_bound 6 n)) as [V2 P2].
    destruct (digit_value _ (sextet_bound 0 n)) as [V3 P3].
    cbn [Base64.decode]. rewrite V0, V1, P2, V2, P3, V3, IH. cbn zeta.
    rewrite (quad_sextets n (group_bound a b c)). subst n.
    destruct (group_bytes a b c) as (-> & -> & ->). reflexivity.
Qed.

End Base64Facts.

(** C7. The [src] attribute of the [img] tag of the header fragment is
    the empty string when the organization has no logo image (no
    organization, or no image), and the string data:image/png;base64,
    followed by the base64 encoding of the stored bytes, from which
    decoding gives those bytes back, when it has one. *)
Theorem C7_header_image_source (r : PdfDbResult) :
  (organization r = None \/
   (exists o, organization r = Some o /\ org_image o = None) ->
   img_src (getBookingAssetsCustomHeader r) = Some "") /\
  (forall o i,
     organization r = Some o -> org_image o = Some i ->
     img_src (getBookingAssetsCustomHeader r)
     = Some ("data:image/png;base64," +:+ Base64.encode (img_blob i)) /\
     Base64.decode (Base64.encode (img_blob i)) = Some (img_blob i)).
Proof.
  unfold getBookingAssetsCustomHeader.
  rewrite (img_src_header _ _ (base64Image_quote_free (organization r))).
  split.
  - intros [Hnone | (o & Ho & Hi)]; unfold base64Image, orgImageBlob.
    + rewrite Hnone. reflexivity.
    + rewrite Ho, Hi. reflexivity.
  - intros o i Ho Hi. split; [| apply decode_encode].
    unfold base64Image, orgImageBlob. rewrite Ho, Hi. reflexivity.
Qed.

Lemma C7_witness :
  img_src (getBookingAssetsCustomHeader
             {| booking := mkBookingWithAssets Sample.b1 [mkAssetRef "a1"];
                assets := [];
                organization := Some Sample.org;
                assetIdToQrCodeMap := ∅ |})
  = Some "data:image/png;base64,TWFu"
  /\
  img_src (getBookingAssetsCustomHeader
             {| booking := mkBookingWithAssets Sample.b1 [mkAssetRef "a1"];
                assets := [];
                organization := Some Sample.org_no_logo;
                assetIdToQrCodeMap := ∅ |})
  = Some "".
Proof.
  split.
  - apply (proj2 (C7_header_image_source
                    {| booking := mkBookingWithAssets Sample.b1 [mkAssetRef "a1"];
                       assets := [];
                       organization := Some Sample.org;
                       assetIdToQrCodeMap := ∅ |})
             Sample.org Sample.logo eq_refl eq_refl).
  - apply (proj1 (C7_header_image_source
                    {| booking := mkBookingWithAssets Sample.b1 [mkAssetRef "a1"];
                       assets := [];
                       organization := Some Sample.org_no_logo;
                       assetIdToQrCodeMap := ∅ |})).
    right. exists Sample.org_no_logo. split; reflexivity.
Defined.

(** Known encodings. *)
Example encode_Man : Base64.encode [Byte.x4d; Byte.x61; Byte.x6e] = "TWFu".
Proof. reflexivity. Qed.
Example encode_Ma : Base64.encode [Byte.x4d; Byte.x61] = "TWE=".
Proof. reflexivity. Qed.
Example encode_M : Base64.encode [Byte.x4d] = "TQ==".
Proof. reflexivity. Qed.
Example encode_high : Base64.encode [Byte.xfb; Byte.xff; Byte.xfe] = "+//+".
Proof. reflexivity. Qed.

(** ** The [Dialog] component *)

(** The backdrop handler navigates to the previous route on a click on
    the backdrop itself and does nothing on a click that bubbled up. *)
Lemma handleBackdropClose_spec (matches : list React.UIMatch) (e : React.MouseEvent) :
  handleBackdropClose matches e
  = if decide (React.target e = React.currentTarget e) then [prevRoute matches] else [].
Proof.
  unfold handleBackdropClose.
  destruct (decide (React.target e = React.currentTarget e)) as [Heq | Hne].
  - rewrite bool_decide_eq_false_2; [reflexivity | intros H; exact (H Heq)].
  - rewrite bool_decide_eq_true_2; [reflexivity | exact Hne].
Qed.

Lemma contains_refl (n : React.ReactNode) : React.contains n n.
Proof. destruct n; left; reflexivity. Qed.

(** C10. With [open] false the component renders null, so nothing is
    output and no element carries a click handler; with [open] true it
    renders the backdrop [div], with the backdrop handler, around the
    [dialog] element whose children are the close button and the given
    children; and it renders something other than null only when [open]
    is true. *)
Theorem C10_dialog_renders_only_when_open
    (matches : list React.UIMatch) (children : React.ReactNode) :
  Dialog matches children false = React.null /\
  React.has_onClick (Dialog matches children false) = false /\
  (exists button,
     Dialog matches children true
     = React.element (React.host "div")
         {| React.className := Some "dialog-backdrop";
            React.onClick := Some (handleBackdropClose matches);
            React.open := None; React.to := None; React.variant := None |}
         [ React.element (React.host "dialog")
             {| React.className := Some "dialog";
                React.onClick := None;
                React.open := Some true; React.to := None; React.variant := None |}
             [ button; children ] ]) /\
  React.contains children (Dialog matches children true) /\
  (forall open, Dialog matches children open <> React.null <-> open = true).
Proof.
  split; [reflexivity |]. split; [reflexivity |]. split; [| split].
  - eexists. reflexivity.
  - unfold Dialog. cbn [React.contains]. right. left. right. right. left.
    apply contains_refl.
  - intros [|]; cbn; split; intros H; try reflexivity; try discriminate.
    exfalso. apply H. reflexivity.
Qed.

Example dialog_closed :
  Dialog [React.mkUIMatch "root" "/"; React.mkUIMatch "routes/bookings" "/bookings"]
         (React.element (React.host "p") React.no_props []) false
  = React.null.
Proof. reflexivity. Qed.

Example prevRoute_two :
  prevRoute [React.mkUIMatch "root" "/"; React.mkUIMatch "routes/bookings" "/bookings";
             React.mkUIMatch "routes/bookings.new" "/bookings/new"]
  = Some (React.mkUIMatch "routes/bookings" "/bookings").
Proof. reflexivity. Qed.

Example prevRoute_one : prevRoute [React.mkUIMatch "root" "/"] = None.
Proof. reflexivity. Qed.

(** * Further properties *)

(** ** [fetchAllPdfRelatedData]: rejections and the resolved result *)

(** X1. A rejection of [getBooking] is the rejection of the call, and no
    other collaborator is called. *)
Theorem X1_getBooking_rejection_propagates
    (w : World) (bookingId organizationId userId : string)
    (role : option string) (e : exn) :
  getBooking w bookingId organizationId = Throw e ->
  Async.run (fetchAllPdfRelatedData w bookingId organizationId userId role)
  = ([ev_getBooking bookingId organizationId], Throw e).
Proof.
  intros Hthrow. unfold Async.run, fetchAllPdfRelatedData, Async.bind, Async.call.
  rewrite Hthrow. reflexivity.
Qed.

Lemma X1_witness :
  Async.run (fetchAllPdfRelatedData SampleFaults.no_service "b1" "o1" "u1" None)
  = ([ev_getBooking "b1" "o1"], Throw (Error "service unavailable")).
Proof.
  apply (X1_getBooking_rejection_propagates SampleFaults.no_service "b1" "o1" "u1" None).
  reflexivity.
Defined.

Lemma denied_dec (role : option string) (b : BookingWithAssets) (userId : string) :
  denied role b userId \/ ~ denied role b userId.
Proof.
  unfold denied.
  destruct (decide (role = Some SELF_SERVICE)) as [Hr | Hr];
    destruct (decide (b_custodianUserId (bk b) = Some userId)) as [Hc | Hc]; tauto.
Qed.

(** X2. For a booking that was found, the asset and organization queries
    are issued, in this order and right after [getBooking], exactly when
    the role is not SELF_SERVICE (an undefined role included) or the
    caller is the custodian. *)
Theorem X2_queries_issued_iff_allowed
    (w : World) (bookingId organizationId userId : string)
    (role : option string) (b : BookingWithAssets) :
  getBooking w bookingId organizationId = Ok (Some b) ->
  (role <> Some SELF_SERVICE \/ b_custodianUserId (bk b) = Some userId)
  <-> exists rest,
        fst (Async.run (fetchAllPdfRelatedData w bookingId organizationId userId role))
        = ev_getBooking bookingId organizationId
            :: ev_asset_findMany (asset_query b)
            :: ev_organization_findUnique organizationId :: rest.
Proof.
  intros Hsome. split.
  - intros Hallowed.
    apply (fetch_allowed_log w bookingId organizationId userId role b Hsome).
    intros [Hrole Hcust]. destruct Hallowed as [H | H]; [exact (H Hrole) | exact (Hcust H)].
  - intros [rest Hlog].
    destruct (denied_dec role b userId) as [Hden | Hallowed].
    + rewrite (fetch_denied w bookingId organizationId userId role b Hsome Hden) in Hlog.
      discriminate Hlog.
    + unfold denied in Hallowed.
      destruct (decide (role = Some SELF_SERVICE)) as [Hr | Hr]; [| left; exact Hr].
      destruct (decide (b_custodianUserId (bk b) = Some userId)) as [Hc | Hc];
        [right; exact Hc | tauto].
Qed.

Lemma X2_witness :
  (None <> Some SELF_SERVICE \/ b_custodianUserId Sample.b1 = Some "u9")
  <-> exists rest,
        fst (Async.run (fetchAllPdfRelatedData Sample.world "b1" "o1" "u9" None))
        = ev_getBooking "b1" "o1"
            :: ev_asset_findMany (asset_query (mkBookingWithAssets Sample.b1 [mkAssetRef "a1"]))
            :: ev_organization_findUnique "o1" :: rest.
Proof.
  apply (X2_queries_issued_iff_allowed Sample.world "b1" "o1" "u9" None
           (mkBookingWithAssets Sample.b1 [mkAssetRef "a1"])).
  reflexivity.
Defined.

(** X3. A booking without a custodian cannot be fetched by any
    SELF_SERVICE caller: the call rejects with the 403 error right after
    [getBooking], whoever the user is. *)
Theorem X3_self_service_no_custodian
    (w : World) (bookingId organizationId userId : string) (b : BookingWithAssets) :
  getBooking w bookingId organizationId = Ok (Some b) ->
  b_custodianUserId (bk b) = None ->
  Async.run (fetchAllPdfRelatedData w bookingId organizationId userId (Some SELF_SERVICE))
  = ([ev_getBooking bookingId organizationId],
     Throw (ShelfError None "You are not authorized to view this booking"
                       403 "Booking" false)).
Proof.
  intros Hsome Hnone. apply (fetch_denied _ _ _ _ _ b Hsome).
  split; [reflexivity |]. rewrite Hnone. discriminate.
Qed.

Lemma X3_witness :
  Async.run (fetchAllPdfRelatedData Sample.world "b5" "o1" "u1" (Some SELF_SERVICE))
  = ([ev_getBooking "b5" "o1"],
     Throw (ShelfError None "You are not authorized to view this booking"
                       403 "Booking" false)).
Proof.
  apply (X3_self_service_no_custodian Sample.world "b5" "o1" "u1"
           (mkBookingWithAssets Sample.b5 [mkAssetRef "a1"])); reflexivity.
Defined.

(** X4. When the caller is allowed, neither query rejects and the QR
    resolver answers, the call makes exactly four calls ([getBooking], the
    asset query, the organization query by the [organizationId] argument,
    and [getQrCodeMaps] on the fetched assets with size small) and
    resolves to the booking as fetched, the answer of the asset query, the
    organization found and the resolver's map. *)
Theorem X4_resolved_result
    (w : World) (bookingId organizationId userId : string)
    (role : option string) (b : BookingWithAssets) (codes : gmap string string) :
  getBooking w bookingId organizationId = Ok (Some b) ->
  ~ denied role b userId ->
  asset_fault w = None ->
  organization_fault w = None ->
  getQrCodeMaps w (Prisma.asset_findMany (asset_table w) (asset_query b))
                userId organizationId "small" = Ok codes ->
  Async.run (fetchAllPdfRelatedData w bookingId organizationId userId role)
  = ([ ev_getBooking bookingId organizationId;
       ev_asset_findMany (asset_query b);
       ev_organization_findUnique organizationId;
       ev_getQrCodeMaps (Prisma.asset_findMany (asset_table w) (asset_query b))
                        userId organizationId "small" ],
     Ok {| booking := b;
           assets := Prisma.asset_findMany (asset_table w) (asset_query b);
           organization :=
             Prisma.organization_findUnique (organization_table w) organizationId;
           assetIdToQrCodeMap := codes |}).
Proof.
  intros Hsome Hden Hfa Hfo Hqr. rewrite <- denied_test in Hden.
  apply not_true_is_false in Hden.
  unfold Async.run, fetchAllPdfRelatedData, Async.bind, Async.call, Async.all2.
  rewrite Hsome. cbn beta iota. rewrite Hden.
  unfold db_asset_findMany, db_organization_findUnique, Async.call.
  rewrite Hfa, Hfo. cbn. rewrite Hqr. reflexivity.
Qed.

Lemma X4_witness :
  exists r,
    snd (Async.run (fetchAllPdfRelatedData Sample.world "b1" "o1" "u1" (Some SELF_SERVICE)))
    = Ok r /\
    organization r = Some Sample.org /\
    assetIdToQrCodeMap r !! "a1" = Some "qr-of-a1" /\
    length (fst (Async.run (fetchAllPdfRelatedData Sample.world "b1" "o1" "u1"
                                                   (Some SELF_SERVICE)))) = 4%nat.
Proof.
  eexists.
  rewrite (X4_resolved_result Sample.world "b1" "o1" "u1" (Some SELF_SERVICE)
             (mkBookingWithAssets Sample.b1 [mkAssetRef "a1"])
             (list_to_map [("a1", "qr-of-a1")])).
  - cbn [fst snd organization assetIdToQrCodeMap]. repeat split; reflexivity.
  - reflexivity.
  - intros [_ Hcust]. apply Hcust. reflexivity.
  - reflexivity.
  - reflexivity.
  - reflexivity.
Defined.

(** X5. When the caller is allowed and the asset query or the
    organization query rejects, both queries have still been issued, the
    call rejects with the error of one of them, and [getQrCodeMaps] is
    never called. *)
Theorem X5_query_rejection
    (w : World) (bookingId organizationId userId : string)
    (role : option string) (b : BookingWithAssets) :
  getBooking w bookingId organizationId = Ok (Some b) ->
  ~ denied role b userId ->
  asset_fault w <> None \/ organization_fault w <> None ->
  let run := Async.run (fetchAllPdfRelatedData w bookingId organizationId userId role) in
  fst run = [ ev_getBooking bookingId organizationId;
              ev_asset_findMany (asset_query b);
              ev_organization_findUnique organizationId ] /\
  exists e, snd run = Throw e /\
            (asset_fault w = Some e \/ organization_fault w = Some e).
Proof.
  intros Hsome Hden Hfault run. subst run. rewrite <- denied_test in Hden.
  apply not_true_is_false in Hden.
  unfold Async.run, fetchAllPdfRelatedData, Async.bind, Async.call, Async.all2.
  rewrite Hsome. cbn beta iota. rewrite Hden.
  unfold db_asset_findMany, db_organization_findUnique, Async.call.
  destruct (asset_fault w) as [ea |], (organization_fault w) as [eo |]; cbn.
  - split; [reflexivity |]. destruct (asset_rejects_first w); eauto.
  - split; [reflexivity |]. eauto.
  - split; [reflexivity |]. eauto.
  - destruct Hfault as [H | H]; contradiction.
Qed.

Lemma X5_witness :
  let run := Async.run (fetchAllPdfRelatedData SampleFaults.asset_timeout
                                               "b1" "o1" "u1" None) in
  fst run = [ ev_getBooking "b1" "o1";
              ev_asset_findMany (asset_query (mkBookingWithAssets Sample.b1
                                                                  [mkAssetRef "a1"]));
              ev_organization_findUnique "o1" ] /\
  exists e, snd run = Throw e /\
            (asset_fault SampleFaults.asset_timeout = Some e \/
             organization_fault SampleFaults.asset_timeout = Some e).
Proof.
  apply (X5_query_rejection SampleFaults.asset_timeout "b1" "o1" "u1" None
           (mkBookingWithAssets Sample.b1 [mkAssetRef "a1"])).
  - reflexivity.
  - intros [Hrole _]. discriminate Hrole.
  - left. discriminate.
Defined.

(** X6. When both queries resolve and [getQrCodeMaps] rejects, the call
    rejects with that error after the four calls: nothing of what was
    fetched is returned. *)
Theorem X6_qr_rejection
    (w : World) (bookingId organizationId userId : string)
    (role : option string) (b : BookingWithAssets) (e : exn) :
  getBooking w bookingId organizationId = Ok (Some b) ->
  ~ denied role b userId ->
  asset_fault w = None ->
  organization_fault w = None ->
  getQrCodeMaps w (Prisma.asset_findMany (asset_table w) (asset_query b))
                userId organizationId "small" = Throw e ->
  Async.run (fetchAllPdfRelatedData w bookingId organizationId userId role)
  = ([ ev_getBooking bookingId organizationId;
       ev_asset_findMany (asset_query b);
       ev_organization_findUnique organizationId;
       ev_getQrCodeMaps (Prisma.asset_findMany (asset_table w) (asset_query b))
                        userId organizationId "small" ],
     Throw e).
Proof.
  intros Hsome Hden Hfa Hfo Hqr. rewrite <- denied_test in Hden.
  apply not_true_is_false in Hden.
  unfold Async.run, fetchAllPdfRelatedData, Async.bind, Async.call, Async.all2.
  rewrite Hsome. cbn beta iota. rewrite Hden.
  unfold db_asset_findMany, db_organization_findUnique, Async.call.
  rewrite Hfa, Hfo. cbn. rewrite Hqr. reflexivity.
Qed.

Lemma X6_witness :
  snd (Async.run (fetchAllPdfRelatedData SampleFaults.no_codes "b1" "o1" "u1" None))
  = Throw (Error "qr failed").
Proof.
  rewrite (X6_qr_rejection SampleFaults.no_codes "b1" "o1" "u1" None
             (mkBookingWithAssets Sample.b1 [mkAssetRef "a1"]) (Error "qr failed")).
  - reflexivity.
  - reflexivity.
  - intros [Hrole _]. discriminate Hrole.
  - reflexivity.
  - reflexivity.
  - reflexivity.
Defined.

(** ** The overlap filter *)

(** X7. A booking with both dates set passes its own filter exactly when
    its status is RESERVED, ONGOING or OVERDUE: the filter does not leave
    the current booking out of the bookings of its assets. *)
Theorem X7_current_booking_admitted (b : Booking) (from to : Z) :
  b_from b = Some from ->
  b_to b = Some to ->
  Prisma.where_matches (bookings_where b) b = true <-> active_status b.
Proof.
  intros Hf Ht. rewrite (bookings_where_matches b from to b Hf Ht). split.
  - intros [Hact _]. exact Hact.
  - intros Hact. split; [exact Hact |]. exists from, to.
    split; [exact Hf |]. split; [exact Ht |]. right. lia.
Qed.

Lemma X7_witness :
  Prisma.where_matches (bookings_where Sample.b6) Sample.b6 = true
  <-> active_status Sample.b6.
Proof.
  apply (X7_current_booking_admitted Sample.b6 (Sample.jan 6) (Sample.jan 2));
    reflexivity.
Defined.

(** X8. Between two bookings of active status whose dates are set and in
    order, the filter is symmetric: the filter of one admits the other
    exactly when the filter of the other admits the one. *)
Theorem X8_overlap_symmetric (a b : Booking) (fa ta fb tb : Z) :
  b_from a = Some fa -> b_to a = Some ta -> fa <= ta ->
  b_from b = Some fb -> b_to b = Some tb -> fb <= tb ->
  active_status a -> active_status b ->
  Prisma.where_matches (bookings_where a) b = true
  <-> Prisma.where_matches (bookings_where b) a = true.
Proof.
  intros Hfa Hta Ha Hfb Htb Hb Hacta Hactb.
  rewrite (bookings_where_matches a fa ta b Hfa Hta).
  rewrite (bookings_where_matches b fb tb a Hfb Htb).
  split.
  - intros (_ & f & t & Hf & Ht & Hcase).
    rewrite Hfb in Hf. rewrite Htb in Ht. injection Hf as <-. injection Ht as <-.
    split; [exact Hacta |]. exists fa, ta. repeat split; try assumption.
    left. lia.
  - intros (_ & f & t & Hf & Ht & Hcase).
    rewrite Hfa in Hf. rewrite Hta in Ht. injection Hf as <-. injection Ht as <-.
    split; [exact Hactb |]. exists fb, tb. repeat split; try assumption.
    left. lia.
Qed.

Lemma X8_witness :
  Prisma.where_matches (bookings_where Sample.b1) Sample.b2 = true
  <-> Prisma.where_matches (bookings_where Sample.b2) Sample.b1 = true.
Proof.
  apply (X8_overlap_symmetric Sample.b1 Sample.b2
           (Sample.jan 1) (Sample.jan 5) (Sample.jan 3) (Sample.jan 10)).
  - reflexivity.
  - reflexivity.
  - vm_compute. discriminate.
  - reflexivity.
  - reflexivity.
  - vm_compute. discriminate.
  - left. reflexivity.
  - left. reflexivity.
Defined.

(** X9. When the call resolves, every returned asset is a row of the
    asset table whose id is one of the ids of [booking.assets], and each
    of its bookings is a booking of that row; a booking with no assets
    resolves to no assets. *)
Theorem X9_only_booked_assets
    (w : World) (bookingId organizationId userId : string)
    (role : option string) (b : BookingWithAssets) (r : PdfDbResult) :
  getBooking w bookingId organizationId = Ok (Some b) ->
  snd (Async.run (fetchAllPdfRelatedData w bookingId organizationId userId role)) = Ok r ->
  (forall a, a ∈ assets r ->
     a_id a ∈ map ref_id (bk_assets b) /\
     exists row, row ∈ asset_table w /\ a_id row = a_id a /\
                 forall o, o ∈ a_bookings a -> o ∈ a_bookings row) /\
  (bk_assets b = [] -> assets r = []).
Proof.
  intros Hsome Hr.
  destruct (fetch_allowed_assets w bookingId organizationId userId role b r Hsome Hr)
    as [_ ->].
  unfold Prisma.asset_findMany, asset_query. cbn [Prisma.where_id_in Prisma.include_bookings_where].
  split.
  - intros a Ha. apply list_elem_of_In, in_map_iff in Ha as (row & <- & Hrow).
    apply list_elem_of_In, list_elem_of_filter in Hrow as [Hid Hin].
    split; [exact Hid |]. exists row. split; [exact Hin |]. split; [reflexivity |].
    intros o Ho. apply include_bookings_elem in Ho as [Ho _]. exact Ho.
  - intros ->. cbn [map].
    induction (asset_table w) as [| row t IH]; [reflexivity |].
    rewrite filter_cons_False; [exact IH |]. apply not_elem_of_nil.
Qed.

Lemma X9_witness :
  exists r,
    snd (Async.run (fetchAllPdfRelatedData Sample.world "b1" "o1" "u1" None)) = Ok r /\
    (forall a, a ∈ assets r ->
       a_id a ∈ ["a1"] /\
       exists row, row ∈ asset_table Sample.world /\ a_id row = a_id a /\
                   forall o, o ∈ a_bookings a -> o ∈ a_bookings row) /\
    ([mkAssetRef "a1"] = [] -> assets r = []).
Proof.
  eexists. split; [vm_compute; reflexivity |].
  apply (X9_only_booked_assets Sample.world "b1" "o1" "u1" None
           (mkBookingWithAssets Sample.b1 [mkAssetRef "a1"])).
  - reflexivity.
  - vm_compute. reflexivity.
Defined.

(** ** [fetchAllPdfRelatedData]: the organization and the order of calls *)

Lemma fetch_resolved_organization
    (w : World) (bookingId organizationId userId : string)
    (role : option string) (r : PdfDbResult) :
  snd (Async.run (fetchAllPdfRelatedData w bookingId organizationId userId role)) = Ok r ->
  organization r = Prisma.organization_findUnique (organization_table w) organizationId.
Proof.
  unfold Async.run, fetchAllPdfRelatedData, Async.bind, Async.call, Async.all2.
  destruct (getBooking w bookingId organizationId) as [[b |] | e];
    cbn beta iota; try discriminate.
  destruct (bool_decide (role = Some SELF_SERVICE) && _); [discriminate |].
  unfold db_asset_findMany, db_organization_findUnique, Async.call. cbn.
  destruct (asset_fault w), (organization_fault w); cbn; try discriminate.
  destruct (getQrCodeMaps w _ userId organizationId "small"); cbn; [| discriminate].
  intros [= <-]. reflexivity.
Qed.

(** X19. When the caller is allowed, neither query rejects and the QR
    resolver answers, the call resolves whether or not the organization
    exists: its organization, if any, is a row of the organization table
    whose id is the [organizationId] argument, and when the table has no
    such row the call still resolves, with no organization, and the
    header built from the result has an empty image source. *)
Theorem X19_organization_by_argument
    (w : World) (bookingId organizationId userId : string)
    (role : option string) (b : BookingWithAssets) (codes : gmap string string) :
  getBooking w bookingId organizationId = Ok (Some b) ->
  ~ denied role b userId ->
  asset_fault w = None ->
  organization_fault w = None ->
  getQrCodeMaps w (Prisma.asset_findMany (asset_table w) (asset_query b))
                userId organizationId "small" = Ok codes ->
  exists r,
    snd (Async.run (fetchAllPdfRelatedData w bookingId organizationId userId role))
    = Ok r /\
    (forall o, organization r = Some o ->
               org_id o = organizationId /\ o ∈ organization_table w) /\
    ((forall o, o ∈ organization_table w -> org_id o <> organizationId) ->
     organization r = None /\
     img_src (getBookingAssetsCustomHeader r) = Some "").
Proof.
  intros Hsome Hden Hfa Hfo Hqr.
  pose proof (fetch_allowed_resolves w bookingId organizationId userId role b codes
                Hsome Hden Hfa Hfo Hqr) as Hr.
  eexists. split; [exact Hr |].
  cbn [organization]. unfold Prisma.organization_findUnique. split.
  - intros o Ho. apply find_some in Ho as [Hin Hid].
    apply bool_decide_eq_true in Hid.
    split; [exact Hid | apply list_elem_of_In; exact Hin].
  - intros Hnone.
    assert (find (fun o => bool_decide (org_id o = organizationId))
                 (organization_table w) = None) as Hno.
    { destruct (find _ (organization_table w)) as [o |] eqn:Ho; [| reflexivity].
      apply find_some in Ho as [Hin Hid].
      apply bool_decide_eq_true in Hid. apply list_elem_of_In in Hin.
      destruct (Hnone o Hin Hid). }
    split; [exact Hno |].
    unfold getBookingAssetsCustomHeader.
    rewrite (img_src_header _ _ (base64Image_quote_free _)).
    cbn [organization]. unfold Prisma.organization_findUnique. rewrite Hno.
    reflexivity.
Qed.

Lemma X19_witness :
  exists r,
    snd (Async.run (fetchAllPdfRelatedData SampleFaults.no_organizations
                                           "b1" "o1" "u1" None)) = Ok r /\
    organization r = None /\
    img_src (getBookingAssetsCustomHeader r) = Some "".
Proof.
  destruct (X19_organization_by_argument SampleFaults.no_organizations "b1" "o1" "u1" None
              (mkBookingWithAssets Sample.b1 [mkAssetRef "a1"])
              (list_to_map [("a1", "qr-of-a1")]))
    as (r & Hr & _ & Hmissing).
  - reflexivity.
  - intros [Hrole _]. discriminate Hrole.
  - reflexivity.
  - reflexivity.
  - reflexivity.
  - exists r. split; [exact Hr |]. apply Hmissing.
    intros o Ho. apply elem_of_nil in Ho. destruct Ho.
Defined.

(** A concrete list of collaborators has no repetition. *)
Ltac distinct_collaborators :=
  repeat (apply NoDup_cons_2;
          [rewrite ?elem_of_cons, elem_of_nil; intuition discriminate |]);
  apply NoDup_nil_2.

(** X20. Every run starts with the [getBooking] call for the given ids,
    makes at most four calls and calls no collaborator twice, whatever the
    collaborators answer. *)
Theorem X20_call_discipline
    (w : World) (bookingId organizationId userId : string) (role : option string) :
  let log := fst (Async.run (fetchAllPdfRelatedData w bookingId organizationId userId role)) in
  (exists rest, log = ev_getBooking bookingId organizationId :: rest) /\
  (length log <= 4)%nat /\
  NoDup (map collaborator_of log).
Proof.
  intros log. subst log.
  unfold Async.run, fetchAllPdfRelatedData, Async.bind, Async.call, Async.all2.
  destruct (getBooking w bookingId organizationId) as [[b |] | e]; cbn beta iota.
  - destruct (bool_decide (role = Some SELF_SERVICE) && _).
    { cbn. split; [eauto |]. split; [lia | distinct_collaborators]. }
    unfold db_asset_findMany, db_organization_findUnique, Async.call. cbn.
    destruct (asset_fault w), (organization_fault w); cbn;
      try (split; [eauto |]; split; [lia | distinct_collaborators]).
    destruct (getQrCodeMaps w _ userId organizationId "small"); cbn;
      (split; [eauto |]; split; [lia | distinct_collaborators]).
  - cbn. split; [eauto |]. split; [lia | distinct_collaborators].
  - cbn. split; [eauto |]. split; [lia | distinct_collaborators].
Qed.

(** ** The header fragment read back *)

Lemma after_free (c : ascii) (p s t : string) :
  free_of c s -> after (String c p) (s +:+ t) = after (String c p) t.
Proof.
  induction s as [| x s IH].
  - reflexivity.
  - intros [Hx Hs].
    change (String x s +:+ t) with (String x (s +:+ t)).
    cbn [after starts_with].
    assert (Ascii.eqb c x = false) as ->
      by (apply Ascii.eqb_neq; intros ->; apply Hx; reflexivity).
    cbn [andb]. apply IH. exact Hs.
Qed.

Lemma free_of_app (c : ascii) (s t : string) :
  free_of c s -> free_of c t -> free_of c (s +:+ t).
Proof.
  induction s as [| x s IH]; [intros _ Ht; exact Ht |].
  intros [Hx Hs] Ht. change (String x s +:+ t) with (String x (s +:+ t)).
  split; [exact Hx | apply IH; assumption].
Qed.

Lemma digit_free_lt (n : N) : Base64.digit n <> "<"%char.
Proof.
  unfold Base64.digit. generalize (N.to_nat n) as k. intros k.
  do 64 (destruct k as [| k]; [cbn; discriminate |]).
  cbn. discriminate.
Qed.

Lemma encode_free_lt (l : list Byte.byte) : free_of "<" (Base64.encode l).
Proof.
  induction l as [| a | a b | a b c l IH] using list_ind3.
  - exact I.
  - cbn. repeat split; try apply digit_free_lt; discriminate.
  - cbn. repeat split; try apply digit_free_lt; discriminate.
  - cbn [Base64.encode free_of].
    repeat split; try apply digit_free_lt. exact IH.
Qed.

Lemma base64Image_free_lt (organization : option Organization) :
  free_of "<" (base64Image organization).
Proof.
  unfold base64Image. destruct (orgImageBlob organization) as [blob |].
  - apply free_of_app; [| apply encode_free_lt].
    cbn. repeat split; discriminate.
  - exact I.
Qed.

(** The template has no text span before its [img] tag. *)
Lemma after_span_header_open (rest : string) :
  after text_span_open (header_open +:+ rest) = after text_span_open rest.
Proof. vm_compute. reflexivity. Qed.

Lemma after_span_header_middle (rest : string) :
  after text_span_open (header_middle +:+ rest) = Some rest.
Proof. vm_compute. reflexivity. Qed.

(** X10. In the fragment, what follows the opening tag of the text span
    is the booking name exactly as stored, with nothing escaped, and then
    the fixed tail of the template; an empty name leaves the tail alone. *)
Theorem X10_name_inserted_verbatim (r : PdfDbResult) :
  after text_span_open (getBookingAssetsCustomHeader r)
  = Some (b_name (bk (booking r)) +:+ header_close).
Proof.
  unfold getBookingAssetsCustomHeader.
  rewrite after_span_header_open.
  change text_span_open with (String "<"%char ("span class=" +:+ dq +:+ "text" +:+ dq +:+ ">")).
  rewrite (after_free "<" _ _ _ (base64Image_free_lt (organization r))).
  change (String "<"%char ("span class=" +:+ dq +:+ "text" +:+ dq +:+ ">"))
    with text_span_open.
  rewrite after_span_header_middle, or_string_id. reflexivity.
Qed.

Lemma strip_data_uri (b64 : string) :
  strip_prefix "data:image/png;base64," ("data:image/png;base64," +:+ b64) = Some b64.
Proof. reflexivity. Qed.

(** X11. The logo can be read back from the fragment: decoding the data
    URI of its [img] tag gives the stored bytes of the organization's
    image, and a fragment built without a logo carries no bytes. *)
Theorem X11_logo_round_trip (r : PdfDbResult) :
  (forall o i,
     organization r = Some o -> org_image o = Some i ->
     logo_of_header (getBookingAssetsCustomHeader r) = Some (img_blob i)) /\
  (orgImageBlob (organization r) = None ->
   logo_of_header (getBookingAssetsCustomHeader r) = None).
Proof.
  unfold logo_of_header, getBookingAssetsCustomHeader.
  rewrite (img_src_header _ _ (base64Image_quote_free (organization r))).
  split.
  - intros o i Ho Hi. unfold base64Image, orgImageBlob. rewrite Ho, Hi.
    rewrite strip_data_uri. apply decode_encode.
  - intros Hnone. unfold base64Image. rewrite Hnone. reflexivity.
Qed.

Lemma X11_witness :
  logo_of_header
    (getBookingAssetsCustomHeader
       {| booking := mkBookingWithAssets Sample.b1 [mkAssetRef "a1"];
          assets := [];
          organization := Some Sample.org;
          assetIdToQrCodeMap := ∅ |})
  = Some [Byte.x4d; Byte.x61; Byte.x6e].
Proof.
  apply (proj1 (X11_logo_round_trip
                  {| booking := mkBookingWithAssets Sample.b1 [mkAssetRef "a1"];
                     assets := [];
                     organization := Some Sample.org;
                     assetIdToQrCodeMap := ∅ |})
           Sample.org Sample.logo eq_refl eq_refl).
Defined.

Example header_name_markup :
  after text_span_open
    (getBookingAssetsCustomHeader
       {| booking :=
            mkBookingWithAssets
              (mkBooking "b7" "<b>Kit</b>" "DRAFT" None None None "o1") [];
          assets := [];
          organization := None;
          assetIdToQrCodeMap := ∅ |})
  = Some ("<b>Kit</b>" +:+ header_close).
Proof. vm_compute. reflexivity. Qed.

(** ** [generatePdfContent]: the calls and their outcome *)

(** X12. When all five puppeteer calls resolve, the call resolves to the
    buffer that [pdf] produced, unchanged, after exactly the calls launch,
    newPage on the launched browser, setContent on the new page, pdf on
    that page and close on the launched browser, in this order. *)
Theorem X12_success_returns_pdf_buffer (p : Puppeteer) (htmlContent : string)
    (h : option string) (styles : option (gmap string string))
    (b : Browser) (pg : Page) (pdfBuffer : list Byte.byte) :
  launch p = Ok b ->
  newPage p b = Ok pg ->
  setContent p pg htmlContent "networkidle0" = Ok tt ->
  pdf p pg (pdf_options h styles) = Ok pdfBuffer ->
  close p b = Ok tt ->
  Async.run (generatePdfContent p htmlContent h styles)
  = ([ ev_launch; ev_newPage b; ev_setContent pg htmlContent "networkidle0";
       ev_pdf pg (pdf_options h styles); ev_close b ],
     Ok pdfBuffer).
Proof.
  intros Hl Hn Hs Hp Hc. rewrite generate_run, Hl, Hn, Hs. cbv zeta.
  rewrite Hp, Hc. reflexivity.
Qed.

Lemma X12_witness :
  Async.run (generatePdfContent SampleBrowser.chrome "<p>list</p>" None None)
  = ([ ev_launch; ev_newPage 1%nat; ev_setContent 7%nat "<p>list</p>" "networkidle0";
       ev_pdf 7%nat (pdf_options None None); ev_close 1%nat ],
     Ok [Byte.x25; Byte.x50; Byte.x44; Byte.x46]).
Proof.
  apply (X12_success_returns_pdf_buffer SampleBrowser.chrome "<p>list</p>" None None
           1%nat 7%nat); reflexivity.
Defined.

(** X13. When [close] rejects after [pdf] has resolved, the call rejects
    with the error of [close]: the buffer that was produced is not
    returned. *)
Theorem X13_close_rejection_loses_buffer (p : Puppeteer) (htmlContent : string)
    (h : option string) (styles : option (gmap string string))
    (b : Browser) (pg : Page) (pdfBuffer : list Byte.byte) (e : exn) :
  launch p = Ok b ->
  newPage p b = Ok pg ->
  setContent p pg htmlContent "networkidle0" = Ok tt ->
  pdf p pg (pdf_options h styles) = Ok pdfBuffer ->
  close p b = Throw e ->
  Async.run (generatePdfContent p htmlContent h styles)
  = ([ ev_launch; ev_newPage b; ev_setContent pg htmlContent "networkidle0";
       ev_pdf pg (pdf_options h styles); ev_close b ],
     Throw e).
Proof.
  intros Hl Hn Hs Hp Hc. rewrite generate_run, Hl, Hn, Hs. cbv zeta.
  rewrite Hp, Hc. reflexivity.
Qed.

Lemma X13_witness :
  snd (Async.run (generatePdfContent SampleFaults.no_close "<p>list</p>" None None))
  = Throw (Error "close failed").
Proof.
  rewrite (X13_close_rejection_loses_buffer SampleFaults.no_close "<p>list</p>" None None
             1%nat 7%nat [Byte.x25; Byte.x50; Byte.x44; Byte.x46]
             (Error "close failed")); reflexivity.
Defined.

(** X14. When [launch] rejects, nothing else is called; when [newPage]
    rejects, the browser that was launched is never closed.  Either way
    the call rejects with that error. *)
Theorem X14_early_rejections (p : Puppeteer) (htmlContent : string)
    (h : option string) (styles : option (gmap string string)) :
  (forall e,
     launch p = Throw e ->
     Async.run (generatePdfContent p htmlContent h styles) = ([ev_launch], Throw e)) /\
  (forall b e,
     launch p = Ok b -> newPage p b = Throw e ->
     Async.run (generatePdfContent p htmlContent h styles)
     = ([ev_launch; ev_newPage b], Throw e)).
Proof.
  split.
  - intros e Hl. rewrite generate_run, Hl. reflexivity.
  - intros b e Hl Hn. rewrite generate_run, Hl, Hn. reflexivity.
Qed.

Lemma X14_witness :
  Async.run (generatePdfContent SampleFaults.no_launch "<p>list</p>" None None)
  = ([ev_launch], Throw (Error "no chrome"))
  /\
  Async.run (generatePdfContent SampleFaults.no_page "<p>list</p>" None None)
  = ([ev_launch; ev_newPage 1%nat], Throw (Error "target closed")).
Proof.
  split.
  - apply (proj1 (X14_early_rejections SampleFaults.no_launch "<p>list</p>" None None)).
    reflexivity.
  - apply (proj2 (X14_early_rejections SampleFaults.no_page "<p>list</p>" None None));
      reflexivity.
Defined.

(** X15. Whatever the arguments and the browser, every [setContent] call
    of a run is given the caller's HTML unchanged and waits for
    networkidle0, and every [pdf] call asks for the A4 format with the
    header and footer displayed. *)
Theorem X15_fixed_call_arguments (p : Puppeteer) (htmlContent : string)
    (h : option string) (styles : option (gmap string string)) :
  let log := fst (Async.run (generatePdfContent p htmlContent h styles)) in
  (forall pg html waitUntil,
     In (ev_setContent pg html waitUntil) log ->
     html = htmlContent /\ waitUntil = "networkidle0") /\
  (forall pg opts,
     In (ev_pdf pg opts) log ->
     format opts = "A4" /\ displayHeaderFooter opts = true).
Proof.
  intros log. subst log. split.
  - intros pg html waitUntil. rewrite generate_run.
    destruct (launch p) as [b | e]; cbn.
    2: { intros [H | []]; discriminate H. }
    destruct (newPage p b) as [pg' | e]; cbn.
    2: { intros [H | [H | []]]; discriminate H. }
    destruct (setContent p pg' htmlContent "networkidle0") as [u | e]; cbn.
    2: { intros [H | [H | [H | []]]]; try discriminate H.
         injection H as _ <- <-. split; reflexivity. }
    destruct (pdf p pg' (pdf_options h styles)) as [buf | e]; cbn.
    + intros [H | [H | [H | [H | [H | []]]]]]; try discriminate H.
      injection H as _ <- <-. split; reflexivity.
    + intros [H | [H | [H | [H | []]]]]; try discriminate H.
      injection H as _ <- <-. split; reflexivity.
  - intros pg opts Hin.
    rewrite (generate_pdf_options p htmlContent h styles pg opts Hin).
    split; reflexivity.
Qed.

(** X16. Once launch, page creation and content setting resolve, [pdf] is
    called, and the margin of every [pdf] call of a run has exactly the
    keys of the styles record together with top, bottom, left and right:
    no styles record can remove a default key, and keys it adds are
    passed on.  A run with an empty styles record is the run with the
    record omitted, and a run with an empty header template is the run
    with the template omitted. *)
Theorem X16_margin_keys (p : Puppeteer) (htmlContent : string)
    (h : option string) (styles : option (gmap string string)) :
  let log := fst (Async.run (generatePdfContent p htmlContent h styles)) in
  (forall b pg,
     launch p = Ok b -> newPage p b = Ok pg ->
     setContent p pg htmlContent "networkidle0" = Ok tt ->
     exists opts, In (ev_pdf pg opts) log) /\
  (forall pg opts,
     In (ev_pdf pg opts) log ->
     dom (margin opts)
     = dom (Js.or_object styles ∅) ∪ {["top"; "bottom"; "left"; "right"]} /\
     forall k, k ∈ ["top"; "bottom"; "left"; "right"] -> is_Some (margin opts !! k)) /\
  Async.run (generatePdfContent p htmlContent h (Some ∅))
  = Async.run (generatePdfContent p htmlContent h None) /\
  Async.run (generatePdfContent p htmlContent (Some "") styles)
  = Async.run (generatePdfContent p htmlContent None styles).
Proof.
  intros log. subst log. split; [| split; [| split]].
  - intros b pg Hl Hn Hs. exists (pdf_options h styles).
    apply (generate_reaches_pdf p htmlContent h styles b pg Hl Hn Hs).
  - intros pg opts Hin.
    rewrite (generate_pdf_options p htmlContent h styles pg opts Hin). split.
    + cbn. unfold spread, default_margin.
      rewrite dom_union_L, !dom_insert_L, dom_empty_L. set_solver.
    + intros k Hk. cbn. unfold spread. apply lookup_union_is_Some. right.
      rewrite !elem_of_cons, elem_of_nil in Hk.
      destruct Hk as [-> | [-> | [-> | [-> | []]]]]; eexists; reflexivity.
  - rewrite !generate_run.
    change (pdf_options h (Some ∅)) with (pdf_options h None). reflexivity.
  - rewrite !generate_run.
    change (pdf_options (Some "") styles) with (pdf_options None styles). reflexivity.
Qed.

Lemma X16_witness :
  exists opts,
    In (ev_pdf 7%nat opts)
       (fst (Async.run (generatePdfContent SampleBrowser.chrome "<p>list</p>" None
                                           (Some SampleBrowser.styles)))) /\
    dom (margin opts)
    = dom SampleBrowser.styles ∪ {["top"; "bottom"; "left"; "right"]} /\
    is_Some (margin opts !! "left").
Proof.
  pose proof (X16_margin_keys SampleBrowser.chrome "<p>list</p>" None
                (Some SampleBrowser.styles))
    as (Hreach & Hcall & _).
  destruct (Hreach 1%nat 7%nat eq_refl eq_refl eq_refl) as [opts Hin].
  exists opts. split; [exact Hin |].
  destruct (Hcall 7%nat opts Hin) as [Hdom Hkeys].
  split; [exact Hdom |]. apply Hkeys. apply list_elem_of_In. cbn. auto.
Defined.

(** ** The open [Dialog]: where its two ways out lead *)

(** X17. In the rendered dialog, a click on the backdrop itself calls
    [navigate] once, with the very route the close button links to, and a
    click that bubbled up from inside the dialog navigates nowhere. *)
Theorem X17_backdrop_and_button_agree
    (matches : list React.UIMatch) (children : React.ReactNode) :
  exists handler,
    root_onClick (Dialog matches children true) = Some handler /\
    (forall e, React.target e = React.currentTarget e ->
               handler e = [close_button_to (Dialog matches children true)]) /\
    (forall e, React.target e <> React.currentTarget e -> handler e = []).
Proof.
  exists (handleBackdropClose matches). split; [reflexivity |]. split.
  - intros e He. rewrite handleBackdropClose_spec.
    destruct (decide (React.target e = React.currentTarget e)) as [_ | Hne];
      [reflexivity | contradiction].
  - intros e He. rewrite handleBackdropClose_spec.
    destruct (decide (React.target e = React.currentTarget e)) as [Heq | _];
      [contradiction | reflexivity].
Qed.

Lemma X17_witness :
  exists handler,
    root_onClick (Dialog SampleFaults.routes React.null true) = Some handler /\
    handler (React.mkMouseEvent 3 3) = [Some (React.mkUIMatch "routes/bookings" "/bookings")] /\
    handler (React.mkMouseEvent 4 3) = [].
Proof.
  destruct (X17_backdrop_and_button_agree SampleFaults.routes React.null)
    as (handler & Hroot & Hself & Hother).
  exists handler. split; [exact Hroot |]. split.
  - apply (Hself (React.mkMouseEvent 3 3)). reflexivity.
  - apply (Hother (React.mkMouseEvent 4 3)). discriminate.
Defined.

(** X18. The previous route is the second to last of the matches; with
    fewer than two matches there is none, and a click on the backdrop
    then calls [navigate] with undefined. *)
Theorem X18_prevRoute_second_to_last (matches : list React.UIMatch) :
  (forall before a b, matches = (before ++ [a; b])%list -> prevRoute matches = Some a) /\
  ((length matches < 2)%nat ->
   prevRoute matches = None /\
   forall e, React.target e = React.currentTarget e ->
             handleBackdropClose matches e = [None]).
Proof.
  split.
  - intros before a b ->. unfold prevRoute.
    rewrite length_app. cbn [length].
    replace (Z.of_nat (length before + 2) - 2) with (Z.of_nat (length before)) by lia.
    destruct (Z.of_nat (length before) <? 0) eqn:Hneg; [apply Z.ltb_lt in Hneg; lia |].
    rewrite Nat2Z.id. apply list_lookup_middle. reflexivity.
  - intros Hshort.
    assert (prevRoute matches = None) as Hnone.
    { unfold prevRoute.
      destruct (Z.of_nat (length matches) - 2 <? 0) eqn:Hneg; [reflexivity |].
      apply Z.ltb_ge in Hneg. lia. }
    split; [exact Hnone |]. intros e He. rewrite handleBackdropClose_spec.
    destruct (decide (React.target e = React.currentTarget e)) as [_ | Hne];
      [rewrite Hnone; reflexivity | contradiction].
Qed.

Lemma X18_witness :
  prevRoute SampleFaults.routes = Some (React.mkUIMatch "routes/bookings" "/bookings")
  /\
  (prevRoute [React.mkUIMatch "root" "/"] = None /\
   forall e, React.target e = React.currentTarget e ->
             handleBackdropClose [React.mkUIMatch "root" "/"] e = [None]).
Proof.
  split.
  - apply (proj1 (X18_prevRoute_second_to_last SampleFaults.routes)
             [React.mkUIMatch "root" "/"]
             (React.mkUIMatch "routes/bookings" "/bookings")
             (React.mkUIMatch "routes/bookings.new" "/bookings/new")).
    reflexivity.
  - apply (proj2 (X18_prevRoute_second_to_last [React.mkUIMatch "root" "/"])).
    cbn. lia.
Defined.
